(** * Service desk: ticket model and ticket controller

    A shallow embedding of [backend/src/models/Ticket.js] (schema and the two
    [pre('save')] hooks), of the ticket controller ([createTicket],
    [getTicketById], [updateTicket], [addComment], [assignTicket],
    [getTicketStats]) and of the middleware [requireAdmin] and
    [checkTicketAccess], followed by the properties of the specification
    that concern them.

    Modelling boundary.  Mongoose and MongoDB are libraries, not part of the
    repository; the embedding fixes the following reading of them.
    - A collection is the list of its documents in insertion order.
    - [doc.save()] first runs Mongoose's own validation, which Mongoose
      registers ahead of every [pre('save')] hook of a schema, then the two
      hooks of [Ticket.js] in the order in which the file registers them,
      refreshes [updatedAt], and writes the document; the unique index on
      [ticketNumber] refuses a write that would give two documents the same
      number.  The validation judges the document as it is handed to
      [save], before the numbering hook has run: a document without the
      [ticketNumber] that the schema requires is refused there.  The
      validators of [ticketNumber] are run at every save; in its other paths
      a stored document is taken to hold values that the schema accepts.
    - [Model.findByIdAndUpdate] writes the given paths (with the schema's
      casts and, as [runValidators] asks, its validators) and refreshes
      [updatedAt]; it is a query, so no [pre('save')] hook runs.  The
      embedding covers the eleven scalar paths of [schemaPaths].  What
      Mongoose makes of a key that names a [Date] or array path, a dotted
      path into an array, or an update operator is not modelled: the
      embedding leaves the document as it is there, and a property of an
      admin's update that would depend on it is stated for patches whose
      keys are among [schemaPaths] ([scalarPatch]).
    - [populate] only decorates user references in the JSON answer; every
      reference is taken to resolve, and the answer is modelled with the
      references themselves.  An answer whose reference resolves to no user,
      where [populate] puts [null], is outside the embedding.
    - Identifiers are well-formed ObjectId strings ([isObjectId]); a string
      that is none makes the cast of Mongoose throw and is outside the
      embedding.  The enumerated paths hold one of their values: a [null]
      that an update would store in [status], [impact] or [urgency] is
      outside the embedding as well.
    - Strings are strings of bytes: [trim], [toLowerCase] and the lengths
      are those of JavaScript on ASCII text.  JavaScript numbers are
      modelled by [Z] plus [NaN], which is exact for the integers below 2^53
      that occur here.
    - One handler invocation reads the clock once ([now]). *)

From stdpp Require Import base strings list gmap fin_maps pretty sorting.
From Stdlib Require Import ZArith Ascii.

Open Scope Z_scope.

(** ** JavaScript primitives used by the source *)

Module JS.

(** Numbers: the integers and [NaN]. *)
Inductive number := NaN | Num (z : Z).

(** [a + b] on numbers. *)
Definition add (a b : number) : number :=
  match a, b with
  | Num x, Num y => Num (x + y)
  | _, _ => NaN
  end.

(** [String(n)]. *)
Definition String_ (n : number) : string :=
  match n with
  | NaN => "NaN"
  | Num z => pretty z
  end.

(** [s.padStart(n, c)] for a one-character pad string. *)
Definition padStart (n : nat) (c : ascii) (s : string) : string :=
  String.app (String.string_of_list_ascii (replicate (n - String.length s) c)) s.

(** [s.split(sep)] for a one-character separator. *)
Fixpoint split (sep : ascii) (s : string) : list string :=
  match s with
  | EmptyString => [EmptyString]
  | String a r =>
      if Ascii.eqb a sep then EmptyString :: split sep r
      else match split sep r with
           | h :: t => String a h :: t
           | [] => [String a EmptyString]
           end
  end.

(** White space as [trim] and [parseInt] see it (the ASCII part). *)
Definition isWhiteSpace (a : ascii) : bool :=
  let n := nat_of_ascii a in
  bool_decide (n = 32 ∨ (9 ≤ n ∧ n ≤ 13))%nat.

Fixpoint trimStart (s : string) : string :=
  match s with
  | String a r => if isWhiteSpace a then trimStart r else s
  | EmptyString => EmptyString
  end.

Fixpoint trimEnd (s : string) : string :=
  match s with
  | EmptyString => EmptyString
  | String a r =>
      match trimEnd r with
      | EmptyString => if isWhiteSpace a then EmptyString else String a EmptyString
      | r' => String a r'
      end
  end.

Definition trim (s : string) : string := trimEnd (trimStart s).

(** [s.toLowerCase()] on ASCII letters. *)
Definition lowerChar (a : ascii) : ascii :=
  let n := nat_of_ascii a in
  if bool_decide (65 ≤ n ∧ n ≤ 90)%nat then ascii_of_nat (n + 32) else a.

Fixpoint toLowerCase (s : string) : string :=
  match s with
  | EmptyString => EmptyString
  | String a r => String (lowerChar a) (toLowerCase r)
  end.

(** The value of a digit in some radix up to 36. *)
Definition digitValue (a : ascii) : option Z :=
  let n := Z.of_nat (nat_of_ascii a) in
  if bool_decide (48 ≤ n ≤ 57) then Some (n - 48)
  else if bool_decide (97 ≤ n ≤ 122) then Some (n - 87)
  else if bool_decide (65 ≤ n ≤ 90) then Some (n - 55)
  else None.

(** The longest prefix of digits of the radix, read as a number;
    [None] when the prefix is empty. *)
Fixpoint digits (radix : Z) (s : string) (acc : option Z) : option Z :=
  match s with
  | EmptyString => acc
  | String a r =>
      match digitValue a with
      | Some d =>
          if bool_decide (d < radix)
          then digits radix r (Some (default 0 acc * radix + d))
          else acc
      | None => acc
      end
  end.

(** [parseInt(s)] on a string, without a radix argument. *)
Definition parseIntString (s : string) : number :=
  let s1 := trimStart s in
  let '(sign, s2) :=
    match s1 with
    | String "-" r => (-1, r)
    | String "+" r => (1, r)
    | _ => (1, s1)
    end in
  let '(radix, s3) :=
    match s2 with
    | String "0" (String "x" r) | String "0" (String "X" r) => (16, r)
    | _ => (10, s2)
    end in
  match digits radix s3 None with
  | Some n => Num (sign * n)
  | None => NaN
  end.

(** [parseInt(x)] where [x] is a string or [undefined]: the argument is
    first converted to a string, and [undefined] reads "undefined". *)
Definition parseInt (x : option string) : number :=
  parseIntString (default "undefined" x).

(** JSON values of a request body (scalars). A key that is absent from an
    object reads [undefined], modelled by [None] at the lookup. *)
Inductive value :=
| Null
| Bool (b : bool)
| Number (n : Z)
| Str (s : string).

#[export] Instance value_eq_dec : EqDecision value.
Proof. solve_decision. Defined.

(** Truthiness of a value that may be [undefined]. *)
Definition truthy (v : option value) : bool :=
  match v with
  | None | Some Null => false
  | Some (Bool b) => b
  | Some (Number n) => negb (n =? 0)
  | Some (Str s) => negb (String.eqb s "")
  end.

(** Truthiness of a string that may be [undefined]. *)
Definition truthyString (s : option string) : bool :=
  match s with
  | None => false
  | Some s => negb (String.eqb s "")
  end.

End JS.

(** ** Dates

    A [Date] is kept as the local calendar fields that the source reads from
    it ([getFullYear], [getMonth] counted from 0, [getDate]) and the
    milliseconds elapsed since local midnight. *)

Record Date := mkDate {
  getFullYear : Z;
  getMonth : Z;
  getDate : Z;
  getMillisOfDay : Z
}.

#[export] Instance Date_eq_dec : EqDecision Date.
Proof. solve_decision. Defined.

(** [d.setHours(h, m, s, ms)]. *)
Definition setHours (h m s ms : Z) (d : Date) : Date :=
  mkDate (getFullYear d) (getMonth d) (getDate d) (((h * 60 + m) * 60 + s) * 1000 + ms).

(** An order-preserving stand-in for [getTime]: dates compare as their time
    values do. *)
Definition getTime (d : Date) : Z :=
  ((getFullYear d * 12 + getMonth d) * 31 + (getDate d - 1)) * 86400000 + getMillisOfDay d.

(** ** Schema of [Ticket.js] *)

Definition oid := string.

Inductive Priority := Low | Medium | High | Critical.
Inductive Status := Open | InProgress | WaitingForResponse | Resolved | Closed.
Inductive Level := LevelLow | LevelMedium | LevelHigh.

#[export] Instance Priority_eq_dec : EqDecision Priority.
Proof. solve_decision. Defined.
#[export] Instance Status_eq_dec : EqDecision Status.
Proof. solve_decision. Defined.
#[export] Instance Level_eq_dec : EqDecision Level.
Proof. solve_decision. Defined.

(** The strings of the schema's [enum] lists. *)
Definition Priority_string (p : Priority) : string :=
  match p with
  | Low => "Low" | Medium => "Medium" | High => "High" | Critical => "Critical"
  end.

Definition Status_string (s : Status) : string :=
  match s with
  | Open => "Open"
  | InProgress => "In Progress"
  | WaitingForResponse => "Waiting for Response"
  | Resolved => "Resolved"
  | Closed => "Closed"
  end.

Definition Level_string (l : Level) : string :=
  match l with
  | LevelLow => "Low" | LevelMedium => "Medium" | LevelHigh => "High"
  end.

Definition categories : list string :=
  [ "Technical Issue"; "Software Installation"; "Hardware Problem";
    "Network Issue"; "Account Access"; "Email Problem"; "Printer Issue";
    "Mobile Device"; "Security Concern"; "Training Request";
    "General Inquiry"; "Other" ].

Module Attachment.
Record t := mk {
  filename : string;
  originalName : string;
  path : string;
  size : Z;
  mimetype : string;
  uploadedAt : Date
}.
End Attachment.

Module Comment.
Record t := mk {
  user : oid;
  message : string;
  isInternal : bool;
  createdAt : Date
}.
End Comment.

Record Ticket := mkTicket {
  _id : oid;
  ticketNumber : option string;
  title : string;
  description : string;
  category : string;
  priority : Priority;
  status : Status;
  createdBy : oid;
  assignedTo : option oid;
  attachments : list Attachment.t;
  comments : list Comment.t;
  resolution : option string;
  resolvedAt : option Date;
  closedAt : option Date;
  estimatedResolutionTime : option Date;
  tags : list string;
  impact : Level;
  urgency : Level;
  createdAt : Date;
  updatedAt : Date
}.

(** Assignments to one path of a document. *)

Definition set_ticketNumber (v : option string) (t : Ticket) : Ticket :=
  mkTicket (_id t) v (title t) (description t) (category t) (priority t)
    (status t) (createdBy t) (assignedTo t) (attachments t) (comments t)
    (resolution t) (resolvedAt t) (closedAt t) (estimatedResolutionTime t)
    (tags t) (impact t) (urgency t) (createdAt t) (updatedAt t).

Definition set_title (v : string) (t : Ticket) : Ticket :=
  mkTicket (_id t) (ticketNumber t) v (description t) (category t)
    (priority t) (status t) (createdBy t) (assignedTo t) (attachments t)
    (comments t) (resolution t) (resolvedAt t) (closedAt t)
    (estimatedResolutionTime t) (tags t) (impact t) (urgency t) (createdAt t)
    (updatedAt t).

Definition set_description (v : string) (t : Ticket) : Ticket :=
  mkTicket (_id t) (ticketNumber t) (title t) v (category t) (priority t)
    (status t) (createdBy t) (assignedTo t) (attachments t) (comments t)
    (resolution t) (resolvedAt t) (closedAt t) (estimatedResolutionTime t)
    (tags t) (impact t) (urgency t) (createdAt t) (updatedAt t).

Definition set_category (v : string) (t : Ticket) : Ticket :=
  mkTicket (_id t) (ticketNumber t) (title t) (description t) v (priority t)
    (status t) (createdBy t) (assignedTo t) (attachments t) (comments t)
    (resolution t) (resolvedAt t) (closedAt t) (estimatedResolutionTime t)
    (tags t) (impact t) (urgency t) (createdAt t) (updatedAt t).

Definition set_priority (v : Priority) (t : Ticket) : Ticket :=
  mkTicket (_id t) (ticketNumber t) (title t) (description t) (category t) v
    (status t) (createdBy t) (assignedTo t) (attachments t) (comments t)
    (resolution t) (resolvedAt t) (closedAt t) (estimatedResolutionTime t)
    (tags t) (impact t) (urgency t) (createdAt t) (updatedAt t).

Definition set_status (v : Status) (t : Ticket) : Ticket :=
  mkTicket (_id t) (ticketNumber t) (title t) (description t) (category t)
    (priority t) v (createdBy t) (assignedTo t) (attachments t) (comments t)
    (resolution t) (resolvedAt t) (closedAt t) (estimatedResolutionTime t)
    (tags t) (impact t) (urgency t) (createdAt t) (updatedAt t).

Definition set_createdBy (v : oid) (t : Ticket) : Ticket :=
  mkTicket (_id t) (ticketNumber t) (title t) (description t) (category t)
    (priority t) (status t) v (assignedTo t) (attachments t) (comments t)
    (resolution t) (resolvedAt t) (closedAt t) (estimatedResolutionTime t)
    (tags t) (impact t) (urgency t) (createdAt t) (updatedAt t).

Definition set_assignedTo (v : option oid) (t : Ticket) : Ticket :=
  mkTicket (_id t) (ticketNumber t) (title t) (description t) (category t)
    (priority t) (status t) (createdBy t) v (attachments t) (comments t)
    (resolution t) (resolvedAt t) (closedAt t) (estimatedResolutionTime t)
    (tags t) (impact t) (urgency t) (createdAt t) (updatedAt t).

Definition set_comments (v : list Comment.t) (t : Ticket) : Ticket :=
  mkTicket (_id t) (ticketNumber t) (title t) (description t) (category t)
    (priority t) (status t) (createdBy t) (assignedTo t) (attachments t) v
    (resolution t) (resolvedAt t) (closedAt t) (estimatedResolutionTime t)
    (tags t) (impact t) (urgency t) (createdAt t) (updatedAt t).

Definition set_resolution (v : option string) (t : Ticket) : Ticket :=
  mkTicket (_id t) (ticketNumber t) (title t) (description t) (category t)
    (priority t) (status t) (createdBy t) (assignedTo t) (attachments t)
    (comments t) v (resolvedAt t) (closedAt t) (estimatedResolutionTime t)
    (tags t) (impact t) (urgency t) (createdAt t) (updatedAt t).

Definition set_resolvedAt (v : option Date) (t : Ticket) : Ticket :=
  mkTicket (_id t) (ticketNumber t) (title t) (description t) (category t)
    (priority t) (status t) (createdBy t) (assignedTo t) (attachments t)
    (comments t) (resolution t) v (closedAt t) (estimatedResolutionTime t)
    (tags t) (impact t) (urgency t) (createdAt t) (updatedAt t).

Definition set_closedAt (v : option Date) (t : Ticket) : Ticket :=
  mkTicket (_id t) (ticketNumber t) (title t) (description t) (category t)
    (priority t) (status t) (createdBy t) (assignedTo t) (attachments t)
    (comments t) (resolution t) (resolvedAt t) v (estimatedResolutionTime t)
    (tags t) (impact t) (urgency t) (createdAt t) (updatedAt t).

Definition set_impact (v : Level) (t : Ticket) : Ticket :=
  mkTicket (_id t) (ticketNumber t) (title t) (description t) (category t)
    (priority t) (status t) (createdBy t) (assignedTo t) (attachments t)
    (comments t) (resolution t) (resolvedAt t) (closedAt t)
    (estimatedResolutionTime t) (tags t) v (urgency t) (createdAt t)
    (updatedAt t).

Definition set_urgency (v : Level) (t : Ticket) : Ticket :=
  mkTicket (_id t) (ticketNumber t) (title t) (description t) (category t)
    (priority t) (status t) (createdBy t) (assignedTo t) (attachments t)
    (comments t) (resolution t) (resolvedAt t) (closedAt t)
    (estimatedResolutionTime t) (tags t) (impact t) v (createdAt t)
    (updatedAt t).

Definition set_updatedAt (v : Date) (t : Ticket) : Ticket :=
  mkTicket (_id t) (ticketNumber t) (title t) (description t) (category t)
    (priority t) (status t) (createdBy t) (assignedTo t) (attachments t)
    (comments t) (resolution t) (resolvedAt t) (closedAt t)
    (estimatedResolutionTime t) (tags t) (impact t) (urgency t)
    (createdAt t) v.

(** The user documents that the ticket code reads: [req.user] and the
    assignee looked up by [assignTicket]. *)

Inductive Role := user | admin.

#[export] Instance Role_eq_dec : EqDecision Role.
Proof. solve_decision. Defined.

Module User.
Record t := mk {
  id : oid;
  role : Role;
  isActive : bool
}.
End User.


(** ** Exceptions

    What a Mongoose call or a JavaScript expression may throw inside a
    handler's [try] block. *)

Inductive Exn := ValidationError | CastError | DuplicateKeyError | TypeError.

Inductive Outcome (A : Type) :=
| Returned (a : A)
| Thrown (e : Exn).

Arguments Returned {A} a.
Arguments Thrown {A} e.

#[export] Instance Outcome_ret : MRet Outcome := @Returned.
#[export] Instance Outcome_bind : MBind Outcome :=
  λ A B f m, match m with Returned a => f a | Thrown e => Thrown e end.

(** ** Schema casts and validators *)

(** The cast of a value to a [String] path; [None] is [null]. *)
Definition castString (v : JS.value) : option string :=
  match v with
  | JS.Null => None
  | JS.Bool b => Some (if b then "true" else "false")
  | JS.Number n => Some (pretty n)
  | JS.Str s => Some s
  end.

(** A [String] path with [trim: true], [required] and [maxlength]. *)
Definition requiredText (maxlength : nat) (v : option JS.value) : Outcome string :=
  match v ≫= castString with
  | None => Thrown ValidationError
  | Some s =>
      let s' := JS.trim s in
      if String.eqb s' "" then Thrown ValidationError
      else if bool_decide (String.length s' ≤ maxlength)%nat then Returned s'
      else Thrown ValidationError
  end.

(** A [String] path with [trim: true] and [maxlength] that may be [null]. *)
Definition optionalText (maxlength : nat) (v : JS.value) : Outcome (option string) :=
  match castString v with
  | None => Returned None
  | Some s =>
      let s' := JS.trim s in
      if bool_decide (String.length s' ≤ maxlength)%nat then Returned (Some s')
      else Thrown ValidationError
  end.

(** A [String] path with an [enum] list, read into the enumeration.  The
    enumerations of the embedding have no [null]: a [null], which Mongoose
    lets through on a path that is not required, is refused here like a
    value outside the list. *)
Definition castEnum {A : Type} (name : A → string) (all : list A)
    (v : option JS.value) : Outcome A :=
  match v ≫= castString with
  | None => Thrown ValidationError
  | Some s =>
      match List.find (λ a, String.eqb (name a) s) all with
      | Some a => Returned a
      | None => Thrown ValidationError
      end
  end.

Definition castPriority := castEnum Priority_string [Low; Medium; High; Critical].
Definition castStatus :=
  castEnum Status_string [Open; InProgress; WaitingForResponse; Resolved; Closed].
Definition castLevel := castEnum Level_string [LevelLow; LevelMedium; LevelHigh].

(** [category]: required, one of [categories]. *)
Definition castCategory (v : option JS.value) : Outcome string :=
  match v ≫= castString with
  | None => Thrown ValidationError
  | Some s => if bool_decide (s ∈ categories) then Returned s else Thrown ValidationError
  end.

(** [ticketNumber]: required [String]. *)
Definition castTicketNumber (v : JS.value) : Outcome (option string) :=
  match castString v with
  | Some s => if String.eqb s "" then Thrown ValidationError else Returned (Some s)
  | None => Thrown ValidationError
  end.

(** A well-formed ObjectId string: 24 hexadecimal digits. *)
Definition isHexDigit (a : ascii) : bool :=
  let n := nat_of_ascii a in
  bool_decide ((48 ≤ n ∧ n ≤ 57) ∨ (97 ≤ n ∧ n ≤ 102) ∨ (65 ≤ n ∧ n ≤ 70))%nat.

Definition isObjectId (s : string) : bool :=
  bool_decide (String.length s = 24%nat)
  && forallb isHexDigit (String.list_ascii_of_string s).

(** An [ObjectId] reference, for strings that are well-formed. *)
Definition castObjectId (v : JS.value) : Outcome (option oid) :=
  match v with
  | JS.Null => Returned None
  | JS.Str s => Returned (Some s)
  | _ => Thrown CastError
  end.

Definition requiredObjectId (v : JS.value) : Outcome oid :=
  o ← castObjectId v;
  match o with
  | Some i => Returned i
  | None => Thrown ValidationError
  end.

(** A [Boolean] path: the values Mongoose converts, [null] reading as unset. *)
Definition castBoolean (v : JS.value) : Outcome bool :=
  match v with
  | JS.Null => Returned false
  | JS.Bool b => Returned b
  | JS.Number n =>
      if n =? 1 then Returned true else if n =? 0 then Returned false
      else Thrown CastError
  | JS.Str s =>
      if bool_decide (s ∈ ["true"; "1"; "yes"]) then Returned true
      else if bool_decide (s ∈ ["false"; "0"; "no"]) then Returned false
      else Thrown CastError
  end.

(** ** The [Ticket] model: queries *)

(** [Ticket.findById(id)]. *)
Definition findById (coll : list Ticket) (i : oid) : option Ticket :=
  List.find (λ t, bool_decide (_id t = i)) coll.

(** [Ticket.findOne({ createdAt: { $gte: lo, $lte: hi } }).sort({ createdAt: -1 })]:
    the document of the window created last; among several created at the
    same instant, the first in the collection. *)
Definition findOneCreatedWithin (lo hi : Date) (coll : list Ticket) : option Ticket :=
  foldl (λ best t,
           if bool_decide (getTime lo ≤ getTime (createdAt t) ≤ getTime hi) then
             match best with
             | Some b =>
                 if bool_decide (getTime (createdAt b) < getTime (createdAt t))
                 then Some t else best
             | None => Some t
             end
           else best)
        None coll.

(** ** The [pre('save')] hooks of [Ticket.js] *)

(** Generate ticket number before saving. *)
Definition preSaveTicketNumber (now : Date) (coll : list Ticket) (this : Ticket) : Ticket :=
  if negb (JS.truthyString (ticketNumber this)) then
    let year := JS.String_ (JS.Num (getFullYear now)) in
    let month := JS.padStart 2 "0" (JS.String_ (JS.Num (getMonth now + 1))) in
    let day := JS.padStart 2 "0" (JS.String_ (JS.Num (getDate now))) in
    let startOfDay := setHours 0 0 0 0 now in
    let endOfDay := setHours 23 59 59 999 now in
    let lastTicket := findOneCreatedWithin startOfDay endOfDay coll in
    let sequenceNumber :=
      match lastTicket with
      | Some last =>
          match ticketNumber last with
          | Some number =>
              if JS.truthyString (Some number) then
                let lastSequence := JS.parseInt (JS.split "-" number !! 3%nat) in
                JS.add lastSequence (JS.Num 1)
              else JS.Num 1
          | None => JS.Num 1
          end
      | None => JS.Num 1
      end in
    set_ticketNumber
      (Some ("TKT-" +:+ year +:+ month +:+ day +:+ "-"
               +:+ JS.padStart 4 "0" (JS.String_ sequenceNumber)))
      this
  else this.

(** The number [TKT-YYYYMMDD-suffix] that the hook writes on a day for a
    suffix, and the ticket that it takes for the last of the day. *)
Definition numberOfDay (now : Date) (suffix : string) : string :=
  "TKT-" +:+ JS.String_ (JS.Num (getFullYear now))
    +:+ JS.padStart 2 "0" (JS.String_ (JS.Num (getMonth now + 1)))
    +:+ JS.padStart 2 "0" (JS.String_ (JS.Num (getDate now))) +:+ "-" +:+ suffix.

Definition lastOfDay (now : Date) (coll : list Ticket) : option Ticket :=
  findOneCreatedWithin (setHours 0 0 0 0 now) (setHours 23 59 59 999 now) coll.

(** Update resolved/closed timestamps based on status. *)
Definition preSaveTimestamps (statusModified : bool) (now : Date) (this : Ticket) : Ticket :=
  if statusModified then
    if bool_decide (status this = Resolved) && bool_decide (resolvedAt this = None)
    then set_resolvedAt (Some now) this
    else if bool_decide (status this = Closed) && bool_decide (closedAt this = None)
    then set_closedAt (Some now) this
    else this
  else this.

(** ** The [Ticket] model: writes *)

(** The unique index on [ticketNumber]: another document holds the number. *)
Definition duplicateNumber (coll : list Ticket) (t : Ticket) : bool :=
  existsb (λ x, bool_decide (_id x ≠ _id t) && bool_decide (ticketNumber x = ticketNumber t)) coll.

Definition replaceById (t : Ticket) (coll : list Ticket) : list Ticket :=
  (λ x, if bool_decide (_id x = _id t) then t else x) <$> coll.

(** The validation that Mongoose runs at the head of [save], ahead of the
    [pre('save')] hooks of the schema: [ticketNumber] is [required], and a
    [String] path that is required wants a string that is not empty. *)
Definition validateBeforeSave (this : Ticket) : Outcome Ticket :=
  if JS.truthyString (ticketNumber this) then Returned this
  else Thrown ValidationError.

(** [this.save()].  [loaded] is the document as it was read from the
    collection, [None] for a document made with [new Ticket(...)];
    [isModified('status')] compares with it, and a new document, whose status
    is the schema default, has no modified status. *)
Definition save (now : Date) (coll : list Ticket) (loaded : option Ticket) (this : Ticket)
    : Outcome (list Ticket * Ticket) :=
  this ← validateBeforeSave this;
  let t1 := preSaveTicketNumber now coll this in
  let statusModified :=
    match loaded with
    | Some o => bool_decide (status o ≠ status t1)
    | None => false
    end in
  let t2 := preSaveTimestamps statusModified now t1 in
  let t3 := set_updatedAt now t2 in
  match loaded with
  | None =>
      if existsb (λ x, bool_decide (_id x = _id t3)) coll || duplicateNumber coll t3
      then Thrown DuplicateKeyError
      else Returned (coll ++ [t3], t3)
  | Some o =>
      if bool_decide (ticketNumber o ≠ ticketNumber t3) && duplicateNumber coll t3
      then Thrown DuplicateKeyError
      else Returned (replaceById t3 coll, t3)
  end.

(** The document that [save] writes for a document read from the collection
    that has its number. *)
Definition saved (now : Date) (o t : Ticket) : Ticket :=
  set_updatedAt now (preSaveTimestamps (bool_decide (status o ≠ status t)) now t).

(** The write of one path by an update, with the schema's cast and
    validators, for the eleven scalar paths.  A key that is no schema path
    is dropped by Mongoose and changes nothing.  The other keys that Mongoose
    acts on ([Date] and array paths, dotted paths, operators) are outside the
    embedding, which leaves the document as it is for them. *)
Definition setPath (key : string) (v : JS.value) (t : Ticket) : Outcome Ticket :=
  if String.eqb key "ticketNumber" then n ← castTicketNumber v; mret (set_ticketNumber n t)
  else if String.eqb key "title" then s ← requiredText 200 (Some v); mret (set_title s t)
  else if String.eqb key "description" then
    s ← requiredText 2000 (Some v); mret (set_description s t)
  else if String.eqb key "category" then s ← castCategory (Some v); mret (set_category s t)
  else if String.eqb key "priority" then p ← castPriority (Some v); mret (set_priority p t)
  else if String.eqb key "status" then s ← castStatus (Some v); mret (set_status s t)
  else if String.eqb key "createdBy" then i ← requiredObjectId v; mret (set_createdBy i t)
  else if String.eqb key "assignedTo" then i ← castObjectId v; mret (set_assignedTo i t)
  else if String.eqb key "resolution" then s ← optionalText 1000 v; mret (set_resolution s t)
  else if String.eqb key "impact" then l ← castLevel (Some v); mret (set_impact l t)
  else if String.eqb key "urgency" then l ← castLevel (Some v); mret (set_urgency l t)
  else mret t.

Definition schemaPaths : list string :=
  [ "ticketNumber"; "title"; "description"; "category"; "priority"; "status";
    "createdBy"; "assignedTo"; "resolution"; "impact"; "urgency" ].

Definition applyUpdates (updates : gmap string JS.value) (t : Ticket) : Outcome Ticket :=
  foldl (λ acc key,
           t' ← acc;
           match updates !! key with
           | Some v => setPath key v t'
           | None => mret t'
           end)
        (mret t) schemaPaths.

(** A patch within the embedding: each of its keys is one of the scalar
    paths. *)
Definition scalarPatch (updates : gmap string JS.value) : Prop :=
  ∀ key, is_Some (updates !! key) → key ∈ schemaPaths.

(** [Ticket.findByIdAndUpdate(id, updates, { new: true, runValidators: true })]:
    the updated document, or [null] when the id resolves to none. *)
Definition findByIdAndUpdate (now : Date) (coll : list Ticket) (i : oid)
    (updates : gmap string JS.value) : Outcome (list Ticket * option Ticket) :=
  match findById coll i with
  | None => mret (coll, None)
  | Some t =>
      t1 ← applyUpdates updates t;
      let t2 := set_updatedAt now t1 in
      if bool_decide (ticketNumber t ≠ ticketNumber t2) && duplicateNumber coll t2
      then Thrown DuplicateKeyError
      else mret (replaceById t2 coll, Some t2)
  end.

(** ** Requests and responses *)

Module File.
Record t := mk {
  filename : string;
  originalname : string;
  path : string;
  size : Z;
  mimetype : string
}.
End File.

Module Req.
(** [validationErrors] is what [validationResult(req)] holds when the
    handler runs: the findings of the validation chains of the route. *)
Record t := mk {
  user : User.t;
  params_id : oid;
  body : gmap string JS.value;
  files : option (list File.t);
  validationErrors : list string
}.
End Req.

(** What a handler reads from its surroundings: the clock, the identifier
    that [new Ticket] draws, and whether [NODE_ENV] is 'development'. *)
Record Env := mkEnv {
  now : Date;
  freshId : oid;
  development : bool
}.

Record DB := mkDB {
  Tickets : list Ticket;
  Users : list User.t
}.

Definition withTickets (coll : list Ticket) (db : DB) : DB := mkDB coll (Users db).

(** The [error] field of a 500 answer. *)
Inductive ErrorInfo :=
| ErrorMessage (e : Exn)
| InternalServerError.

Record Overview := mkOverview {
  totalTickets : nat;
  openTickets : nat;
  inProgressTickets : nat;
  resolvedTickets : nat;
  closedTickets : nat
}.

Inductive Body :=
| Message (message : string)
| ValidationFailed (errors : list string)
| TicketOnly (ticket : Ticket)
| MessageTicket (message : string) (ticket : option Ticket)
| MessageComment (message : string) (comment : option Comment.t)
| Failure (message : string) (error : ErrorInfo)
| Statistics (overview : Overview)
    (priorityDistribution categoryDistribution : gmap string nat).

Record Response := mkResponse {
  statusCode : Z;
  json : Body
}.

Definition Handler := Env → DB → Req.t → DB * Response.

(** The [catch] block shared by the handlers. *)
Definition failed (env : Env) (message : string) (e : Exn) : Response :=
  mkResponse 500
    (Failure message (if development env then ErrorMessage e else InternalServerError)).

(** ** Middleware ([middleware/auth]) *)

(** Check if user is admin. *)
Definition requireAdmin (next : Handler) : Handler :=
  λ env db req,
    if bool_decide (User.role (Req.user req) ≠ admin)
    then (db, mkResponse 403 (Message "Admin access required"))
    else next env db req.

(** Check if user can access ticket: ownership is left to the handler. *)
Definition checkTicketAccess (next : Handler) : Handler :=
  λ env db req,
    if bool_decide (User.role (Req.user req) = admin) then next env db req
    else next env db req.

(** ** The ticket controller *)

(** The permission test shared by [getTicketById], [updateTicket] and
    [addComment]. *)
Definition isOwner (ticket : Ticket) (req : Req.t) : bool :=
  bool_decide (createdBy ticket = User.id (Req.user req)).

Definition isAdmin (req : Req.t) : bool :=
  bool_decide (User.role (Req.user req) = admin).

Definition isAssigned (ticket : Ticket) (req : Req.t) : bool :=
  match assignedTo ticket with
  | Some a => bool_decide (a = User.id (Req.user req))
  | None => false
  end.

(** The actor is neither an admin, nor the creator, nor the assignee. *)
Definition stranger (req : Req.t) (ticket : Ticket) : Prop :=
  User.role (Req.user req) ≠ admin ∧
  createdBy ticket ≠ User.id (Req.user req) ∧
  assignedTo ticket ≠ Some (User.id (Req.user req)).

(** The document that [createTicket] builds with [new Ticket({...})], as the
    schema casts it. *)
Definition newTicket (env : Env) (req : Req.t) : Outcome Ticket :=
  let b := Req.body req in
  let attachments :=
    match Req.files req with
    | Some fs =>
        (λ file, Attachment.mk (File.filename file) (File.originalname file)
                   (File.path file) (File.size file) (File.mimetype file) (now env)) <$> fs
    | None => []
    end in
  tags ←
    (if JS.truthy (b !! "tags") then
       match b !! "tags" with
       | Some (JS.Str s) => Returned (JS.trim <$> JS.split "," s)
       | _ => Thrown TypeError
       end
     else Returned []);
  title ← requiredText 200 (b !! "title");
  description ← requiredText 2000 (b !! "description");
  category ← castCategory (b !! "category");
  priority ←
    castPriority (if JS.truthy (b !! "priority") then b !! "priority"
                  else Some (JS.Str "Medium"));
  impact ←
    castLevel (if JS.truthy (b !! "impact") then b !! "impact" else Some (JS.Str "Low"));
  urgency ←
    castLevel (if JS.truthy (b !! "urgency") then b !! "urgency" else Some (JS.Str "Low"));
  mret (mkTicket (freshId env) None title description category priority Open
          (User.id (Req.user req)) None attachments [] None None None None
          ((λ tag, JS.toLowerCase (JS.trim tag)) <$> tags) impact urgency
          (now env) (now env)).

(** Create new ticket. *)
Definition createTicket : Handler :=
  λ env db req,
    if bool_decide (Req.validationErrors req ≠ [])
    then (db, mkResponse 400 (ValidationFailed (Req.validationErrors req)))
    else
      match ticket ← newTicket env req; save (now env) (Tickets db) None ticket with
      | Returned (coll, ticket) =>
          (withTickets coll db,
           mkResponse 201 (MessageTicket "Ticket created successfully" (Some ticket)))
      | Thrown e => (db, failed env "Failed to create ticket" e)
      end.

(** Get single ticket by ID. *)
Definition getTicketById : Handler :=
  λ env db req,
    match findById (Tickets db) (Req.params_id req) with
    | None => (db, mkResponse 404 (Message "Ticket not found"))
    | Some ticket =>
        if negb (isAdmin req) && negb (isOwner ticket req) && negb (isAssigned ticket req)
        then (db, mkResponse 403 (Message "Access denied"))
        else (db, mkResponse 200 (TicketOnly ticket))
    end.

Definition allowedFields : list string := ["title"; "description"; "priority"].

(** Restrict what regular users can update: the [forEach] over
    [Object.keys(updates)] that deletes every key outside [allowedFields]. *)
Definition restrictUpdates (updates : gmap string JS.value) : gmap string JS.value :=
  foldl (λ u key, if bool_decide (key ∈ allowedFields) then u else delete key u)
        updates (map_to_list updates).*1.

(** The request with another body. *)
Definition withBody (b : gmap string JS.value) (req : Req.t) : Req.t :=
  Req.mk (Req.user req) (Req.params_id req) b (Req.files req) (Req.validationErrors req).

(** The value of a path after an update: the cast of the value that the
    patch gives for it, or the stored value when the patch has none. *)
Definition patched {A : Type} (cast : option JS.value → Outcome A)
    (v : option JS.value) (stored : A) : Outcome A :=
  match v with
  | Some _ => cast v
  | None => Returned stored
  end.

(** Update ticket. *)
Definition updateTicket : Handler :=
  λ env db req,
    if bool_decide (Req.validationErrors req ≠ [])
    then (db, mkResponse 400 (ValidationFailed (Req.validationErrors req)))
    else
      match findById (Tickets db) (Req.params_id req) with
      | None => (db, mkResponse 404 (Message "Ticket not found"))
      | Some ticket =>
          if negb (isAdmin req) && negb (isOwner ticket req) && negb (isAssigned ticket req)
          then (db, mkResponse 403 (Message "Access denied"))
          else
            let updates :=
              if negb (isAdmin req) then restrictUpdates (Req.body req)
              else Req.body req in
            match findByIdAndUpdate (now env) (Tickets db) (Req.params_id req) updates with
            | Returned (coll, updatedTicket) =>
                (withTickets coll db,
                 mkResponse 200 (MessageTicket "Ticket updated successfully" updatedTicket))
            | Thrown e => (db, failed env "Failed to update ticket" e)
            end
      end.

(** The subdocument pushed by [addComment], as the schema casts it:
    [message] is required, trimmed and at most 1000 characters, [isInternal]
    is a Boolean, [createdAt] defaults to the current time. *)
Definition newComment (env : Env) (req : Req.t) (commentIsInternal : JS.value)
    : Outcome Comment.t :=
  message ← requiredText 1000 (Req.body req !! "message");
  internal ← castBoolean commentIsInternal;
  mret (Comment.mk (User.id (Req.user req)) message internal (now env)).

(** What the body of a comment request asks for in [isInternal], absent
    reading as false. *)
Definition wantsInternal (req : Req.t) : Outcome bool :=
  castBoolean (default (JS.Bool false) (Req.body req !! "isInternal")).

(** Add comment to ticket. *)
Definition addComment : Handler :=
  λ env db req,
    if bool_decide (Req.validationErrors req ≠ [])
    then (db, mkResponse 400 (ValidationFailed (Req.validationErrors req)))
    else
      let isInternal := default (JS.Bool false) (Req.body req !! "isInternal") in
      match findById (Tickets db) (Req.params_id req) with
      | None => (db, mkResponse 404 (Message "Ticket not found"))
      | Some ticket =>
          if negb (isAdmin req) && negb (isOwner ticket req) && negb (isAssigned ticket req)
          then (db, mkResponse 403 (Message "Access denied"))
          else
            (* Only admins can add internal comments *)
            let commentIsInternal := if isAdmin req then isInternal else JS.Bool false in
            match
              comment ← newComment env req commentIsInternal;
              save (now env) (Tickets db) (Some ticket)
                (set_comments (comments ticket ++ [comment]) ticket)
            with
            | Returned (coll, ticket') =>
                (withTickets coll db,
                 mkResponse 200
                   (MessageComment "Comment added successfully" (last (comments ticket'))))
            | Thrown e => (db, failed env "Failed to add comment" e)
            end
      end.

(** [User.findById(id)]. *)
Definition findUserById (users : list User.t) (i : oid) : option User.t :=
  List.find (λ u, bool_decide (User.id u = i)) users.

(** Assign ticket (admin only).  The handler does not consult
    [validationResult]; a truthy [assignedTo] that is no ObjectId makes
    [User.findById] throw. *)
Definition assignTicket : Handler :=
  λ env db req,
    let assignedTo := Req.body req !! "assignedTo" in
    match findById (Tickets db) (Req.params_id req) with
    | None => (db, mkResponse 404 (Message "Ticket not found"))
    | Some ticket =>
        let target :=
          match assignedTo with
          | Some v => if JS.truthy assignedTo then castObjectId v else Returned None
          | None => Returned None
          end in
        match target with
        | Thrown e => (db, failed env "Failed to assign ticket" e)
        | Returned target =>
            (* Verify assignee exists *)
            if JS.truthy assignedTo
               && bool_decide (target ≫= findUserById (Users db) = None)
            then (db, mkResponse 400 (Message "Assignee not found"))
            else
              (* Update assignment *)
              let ticket1 := set_assignedTo target ticket in
              let ticket2 :=
                if JS.truthy assignedTo && bool_decide (status ticket1 = Open)
                then set_status InProgress ticket1 else ticket1 in
              match save (now env) (Tickets db) (Some ticket) ticket2 with
              | Returned (coll, ticket') =>
                  (withTickets coll db,
                   mkResponse 200
                     (MessageTicket "Ticket assignment updated successfully" (Some ticket')))
              | Thrown e => (db, failed env "Failed to assign ticket" e)
              end
        end
    end.

(** What an assignment request asks for, read off its body: [Some (Some i)]
    to assign the existing user [i], [Some None] to clear the assignment (a
    falsy [assignedTo]), and [None] when the value names no existing user. *)
Definition requestedAssignee (db : DB) (req : Req.t) : option (option oid) :=
  let assignedTo := Req.body req !! "assignedTo" in
  if JS.truthy assignedTo then
    match assignedTo with
    | Some (JS.Str i) =>
        match findUserById (Users db) i with
        | Some _ => Some (Some i)
        | None => None
        end
    | _ => None
    end
  else Some None.

(** [{ $sum: { $cond: [{ $eq: ['$status', name] }, 1, 0] } }]. *)
Definition sumStatus (name : string) (coll : list Ticket) : nat :=
  sum_list ((λ t, if String.eqb (Status_string (status t)) name then 1 else 0)%nat <$> coll).

(** The [$group] stage with [_id: null]: one group when there is a document,
    none otherwise. *)
Definition aggregateOverview (coll : list Ticket) : list Overview :=
  match coll with
  | [] => []
  | _ =>
      [ mkOverview (sum_list ((λ _, 1%nat) <$> coll))
          (sumStatus "Open" coll) (sumStatus "In Progress" coll)
          (sumStatus "Resolved" coll) (sumStatus "Closed" coll) ]
  end.

(** The [$group] stage with [_id: '$path'] and [count: { $sum: 1 }]. *)
Definition aggregateCount (path : Ticket → string) (coll : list Ticket) : gmap string nat :=
  foldr (λ t groups, <[path t := S (default 0%nat (groups !! path t))]> groups) ∅ coll.

(** Get ticket statistics (admin only). *)
Definition getTicketStats : Handler :=
  λ env db req,
    let stats := aggregateOverview (Tickets db) in
    let priorityStats := aggregateCount (λ t, Priority_string (priority t)) (Tickets db) in
    let categoryStats := aggregateCount category (Tickets db) in
    (db,
     mkResponse 200
       (Statistics (default (mkOverview 0 0 0 0 0) (head stats)) priorityStats categoryStats)).

(** The tickets whose status is 'Waiting for Response', which
    [getTicketStats] has no counter for. *)
Definition waitingTickets (coll : list Ticket) : nat :=
  length (filter (λ t, status t = WaitingForResponse) coll).

(** ** Routes ([routes/tickets]) *)

Inductive Route :=
| POST_tickets
| GET_tickets_stats
| GET_tickets_id
| PUT_tickets_id
| POST_tickets_id_comments
| PUT_tickets_id_assign.

Definition router (r : Route) : Handler :=
  match r with
  | POST_tickets => createTicket
  | GET_tickets_stats => requireAdmin getTicketStats
  | GET_tickets_id => checkTicketAccess getTicketById
  | PUT_tickets_id => checkTicketAccess updateTicket
  | POST_tickets_id_comments => checkTicketAccess addComment
  | PUT_tickets_id_assign => requireAdmin assignTicket
  end.

(** A request as the server receives it, with the surroundings in which it
    is handled, and the run of a sequence of requests served one after the
    other. *)
Record Call := mkCall {
  callEnv : Env;
  callRoute : Route;
  callReq : Req.t
}.

Definition serve (db : DB) (c : Call) : DB * Response :=
  router (callRoute c) (callEnv c) db (callReq c).

Definition run (db : DB) (calls : list Call) : DB :=
  foldl (λ db c, (serve db c).1) db calls.

(** The ticket [i] is stored with the number [n]. *)
Definition numbered (coll : list Ticket) (i : oid) (n : string) : Prop :=
  ∃ t, findById coll i = Some t ∧ ticketNumber t = Some n.

(** An update by an admin whose patch names [ticketNumber]. *)
Definition renumbers (c : Call) : Prop :=
  callRoute c = PUT_tickets_id ∧
  User.role (Req.user (callReq c)) = admin ∧
  is_Some (Req.body (callReq c) !! "ticketNumber").

(** ** Sample data for the concrete scenarios *)

Module Sample.

Definition alice : User.t := User.mk "64b7f0c2a1d3e4f5a6b7c801" user true.
Definition bob : User.t := User.mk "64b7f0c2a1d3e4f5a6b7c802" user true.
Definition carol : User.t := User.mk "64b7f0c2a1d3e4f5a6b7c803" admin true.

(** 1 January 2024, [ms] milliseconds after midnight. *)
Definition newYear (ms : Z) : Date := mkDate 2024 0 1 ms.

Definition env (ms : Z) (fresh : oid) : Env := mkEnv (newYear ms) fresh false.


Definition request (actor : User.t) (i : oid) (fields : list (string * JS.value)) : Req.t :=
  Req.mk actor i (list_to_map fields) None [].

Definition draft : list (string * JS.value) :=
  [ ("title", JS.Str "Printer on floor 2 is jammed");
    ("description", JS.Str "Paper jam that does not clear after a restart");
    ("category", JS.Str "Printer Issue") ].

Definition t1 : oid := "64b7f0c2a1d3e4f5a6b7c901".
Definition t2 : oid := "64b7f0c2a1d3e4f5a6b7c902".
Definition t3 : oid := "64b7f0c2a1d3e4f5a6b7c903".
Definition missing : oid := "64b7f0c2a1d3e4f5a6b7c9ff".

Definition empty : DB := mkDB [] [alice; bob; carol].

(** Three creation requests on the same day, one second apart. *)
Definition create1 : Call := mkCall (env 1000 t1) POST_tickets (request alice "" draft).
Definition create2 : Call := mkCall (env 2000 t2) POST_tickets (request alice "" draft).
Definition create3 : Call := mkCall (env 3000 t3) POST_tickets (request bob "" draft).

(** A ticket of alice's carrying a public and an internal comment. *)
Definition publicNote : Comment.t :=
  Comment.mk (User.id alice) "It jams on every second page" false (newYear 5000).
Definition internalNote : Comment.t :=
  Comment.mk (User.id carol) "Known fault, vendor is slow to answer" true (newYear 6000).

Definition ticket : Ticket :=
  mkTicket t1 (Some "TKT-20240101-0001") "Printer on floor 2 is jammed"
    "Paper jam that does not clear after a restart" "Printer Issue" Medium Open
    (User.id alice) None [] [publicNote; internalNote] None None None None []
    LevelLow LevelLow (newYear 1000) (newYear 6000).

Definition db : DB := mkDB [ticket] [alice; bob; carol].

(** carol assigns alice's ticket to bob. *)
Definition assignBob : Req.t :=
  request carol t1 [("assignedTo", JS.Str (User.id bob))].

(** alice comments her ticket and asks for the comment to be internal. *)
Definition aliceComments : Req.t :=
  request alice t1 [("message", JS.Str "Any news?"); ("isInternal", JS.Bool true)].

(** alice edits her ticket and also tries to resolve and reassign it. *)
Definition aliceEdits : Req.t :=
  request alice t1
    [ ("title", JS.Str "  Printer on floor 2 is jammed again ");
      ("priority", JS.Str "High");
      ("status", JS.Str "Resolved");
      ("assignedTo", JS.Str (User.id alice));
      ("ticketNumber", JS.Str "TKT-20240101-9999") ].

(** carol, an admin, resolves alice's ticket, and later closes it. *)
Definition carolResolves : Call :=
  mkCall (env 7000 "") PUT_tickets_id (request carol t1 [("status", JS.Str "Resolved")]).
Definition carolCloses : Call :=
  mkCall (env 8000 "") PUT_tickets_id (request carol t1 [("status", JS.Str "Closed")]).

(** carol gives alice's ticket another number. *)
Definition carolRenumbers : Call :=
  mkCall (env 7000 "") PUT_tickets_id
    (request carol t1 [("ticketNumber", JS.Str "TKT-20240101-9999")]).

(** A day in the life of alice's ticket: she edits it (naming a number in
    her patch), carol assigns it to bob, alice comments, bob asks for another
    ticket, carol resolves alice's. *)
Definition day : list Call :=
  [ mkCall (env 7000 "") PUT_tickets_id aliceEdits;
    mkCall (env 8000 "") PUT_tickets_id_assign assignBob;
    mkCall (env 9000 "") POST_tickets_id_comments aliceComments;
    mkCall (env 10000 t2) POST_tickets (request bob "" draft);
    carolResolves ].

End Sample.

(** * The rest of the server around the ticket model

    [authenticateToken] of [middleware/auth], the listing filter of
    [getTickets], and the handlers of the user controller that read or guard
    the ticket collection: [deleteUser], [getUserById], [getDashboardData]. *)

(** ** Authentication *)

(** What [jwt.verify(token, process.env.JWT_SECRET)] does with a token: it
    returns the payload, which [generateToken] makes of a user id, or throws.
    The function itself belongs to the jsonwebtoken library and is a
    parameter of the embedding. *)
Inductive JwtResult :=
| Decoded (userId : oid)
| JsonWebTokenError
| TokenExpiredError
| OtherError.

(** A request before [authenticateToken] has set [req.user]. *)
Module Raw.
Record t := mk {
  authorization : option string;
  params_id : oid;
  body : gmap string JS.value;
  files : option (list File.t);
  validationErrors : list string
}.
End Raw.

(** [authHeader && authHeader.split(' ')[1]]. *)
Definition bearerToken (raw : Raw.t) : option string :=
  match Raw.authorization raw with
  | Some authHeader =>
      if JS.truthyString (Some authHeader) then JS.split " " authHeader !! 1%nat
      else Some authHeader
  | None => None
  end.

(** A word: a string without a space in it. *)
Definition spaceless (w : string) : Prop :=
  Forall (λ a, a ≠ " "%char) (String.list_ascii_of_string w).

(** Verify JWT token. *)
Definition authenticateToken (jwtVerify : string → JwtResult) (next : Handler)
    : Env → DB → Raw.t → DB * Response :=
  λ env db raw,
    let token := bearerToken raw in
    if negb (JS.truthyString token)
    then (db, mkResponse 401 (Message "Access token required"))
    else
      match jwtVerify (default "" token) with
      | Decoded userId =>
          match findUserById (Users db) userId with
          | None => (db, mkResponse 401 (Message "Invalid token - user not found"))
          | Some account =>
              if negb (User.isActive account)
              then (db, mkResponse 401 (Message "Account is deactivated"))
              else
                next env db
                  (Req.mk account (Raw.params_id raw) (Raw.body raw) (Raw.files raw)
                     (Raw.validationErrors raw))
          end
      | JsonWebTokenError => (db, mkResponse 401 (Message "Invalid token"))
      | TokenExpiredError => (db, mkResponse 401 (Message "Token expired"))
      | OtherError => (db, mkResponse 500 (Message "Authentication failed"))
      end.

(** A ticket route as it is mounted: [authenticateToken] first. *)
Definition api (jwtVerify : string → JwtResult) (r : Route)
    : Env → DB → Raw.t → DB * Response :=
  authenticateToken jwtVerify (router r).

(** ** The listing filter of [getTickets]

    The filter object that [getTickets] builds from [req.user] and the query
    string, and what [Ticket.find(filter)] and
    [Ticket.countDocuments(filter)] make of it.  The sort, the paging and
    the numbers computed from [page] and [limit] are not part of the
    embedding.  The test of a [$regex] with option 'i' is MongoDB's and is a
    parameter. *)

Record Filter := mkFilter {
  filter_or : option oid;
  filter_status : option string;
  filter_priority : option string;
  filter_category : option string;
  filter_assignedTo : option string;
  filter_createdBy : option string;
  filter_and : list string
}.

(** [if (x) filter.x = x] for a query parameter. *)
Definition queryParam (query : gmap string string) (key : string) : option string :=
  match query !! key with
  | Some v => if JS.truthyString (Some v) then Some v else None
  | None => None
  end.

(** Build filter object. *)
Definition buildFilter (actor : User.t) (query : gmap string string) : Filter :=
  mkFilter
    (* If user is not admin, only show their tickets or assigned tickets *)
    (if bool_decide (User.role actor ≠ admin) then Some (User.id actor) else None)
    (queryParam query "status") (queryParam query "priority")
    (queryParam query "category") (queryParam query "assignedTo")
    (queryParam query "createdBy")
    (match queryParam query "search" with
     | Some search => [search]
     | None => []
     end).

Section Listing.

(** [regexTest pattern subject]: the subject matches [{ $regex: pattern,
    $options: 'i' }]. *)
Variable regexTest : string → string → bool.

Definition equalsParam (param : option string) (value : string) : bool :=
  match param with
  | Some v => String.eqb value v
  | None => true
  end.

(** A document matches the filter: every key of the filter object holds. *)
Definition matchesFilter (f : Filter) (t : Ticket) : bool :=
  match filter_or f with
  | Some i => bool_decide (createdBy t = i) || bool_decide (assignedTo t = Some i)
  | None => true
  end
  && equalsParam (filter_status f) (Status_string (status t))
  && equalsParam (filter_priority f) (Priority_string (priority t))
  && equalsParam (filter_category f) (category t)
  && match filter_assignedTo f with
     | Some i => bool_decide (assignedTo t = Some i)
     | None => true
     end
  && equalsParam (filter_createdBy f) (createdBy t)
  && forallb (λ search,
                regexTest search (title t) || regexTest search (description t)
                || match ticketNumber t with
                   | Some n => regexTest search n
                   | None => false
                   end)
       (filter_and f).

(** [Ticket.find(filter)], before any sort or paging, and
    [Ticket.countDocuments(filter)]. *)
Definition findTickets (f : Filter) (coll : list Ticket) : list Ticket :=
  List.filter (matchesFilter f) coll.

Definition countDocuments (f : Filter) (coll : list Ticket) : nat :=
  length (findTickets f coll).

End Listing.

(** ** The user controller *)

(** [status: { $in: ['Open', 'In Progress', 'Waiting for Response'] }]. *)
Definition activeStatuses : list string := ["Open"; "In Progress"; "Waiting for Response"].

(** The [countDocuments] of [deleteUser]: the tickets that the user created
    or is assigned and that are in one of the active statuses. *)
Definition countActiveTickets (i : oid) (coll : list Ticket) : nat :=
  length
    (filter (λ t, (createdBy t = i ∧ Status_string (status t) ∈ activeStatuses) ∨
                  (assignedTo t = Some i ∧ Status_string (status t) ∈ activeStatuses))
       coll).

(** [User.findByIdAndUpdate(id, { isActive: false })]. *)
Definition deactivate (i : oid) (users : list User.t) : list User.t :=
  (λ u, if bool_decide (User.id u = i) then User.mk (User.id u) (User.role u) false
        else u) <$> users.

(** Delete user (admin only). *)
Definition deleteUser : Handler :=
  λ env db req,
    let id := Req.params_id req in
    (* Check if user exists *)
    match findUserById (Users db) id with
    | None => (db, mkResponse 404 (Message "User not found"))
    | Some account =>
        (* Check if user has active tickets *)
        let activeTickets := countActiveTickets id (Tickets db) in
        if bool_decide (0 < activeTickets)%nat
        then
          (db,
           mkResponse 400
             (Message ("Cannot delete user with " +:+ pretty activeTickets
                         +:+ " active tickets. Please resolve or reassign tickets first.")))
        else
          (* Soft delete by deactivating the user *)
          (mkDB (Tickets db) (deactivate id (Users db)),
           mkResponse 200 (Message "User deactivated successfully"))
    end.

(** The [DELETE /api/users/:id] route. *)
Definition apiDeleteUser (jwtVerify : string → JwtResult)
    : Env → DB → Raw.t → DB * Response :=
  authenticateToken jwtVerify (requireAdmin deleteUser).

(** [.sort({ createdAt: -1 })]: by insertion, a document going before the
    first one that is not newer; documents created at the same instant keep
    the order of the collection. *)
Fixpoint insertCreatedAtDesc (t : Ticket) (sorted : list Ticket) : list Ticket :=
  match sorted with
  | [] => [t]
  | x :: rest =>
      if bool_decide (getTime (createdAt x) ≤ getTime (createdAt t))
      then t :: sorted
      else x :: insertCreatedAtDesc t rest
  end.

Definition sortCreatedAtDesc (coll : list Ticket) : list Ticket :=
  foldr insertCreatedAtDesc [] coll.

(** [a] was created no earlier than [b]. *)
Definition newerOrEqual (a b : Ticket) : Prop :=
  getTime (createdAt b) ≤ getTime (createdAt a).

(** [Ticket.countDocuments({ createdBy, status })], either key optional. *)
Definition countTickets (creator : option oid) (statusName : option string)
    (coll : list Ticket) : nat :=
  length
    (List.filter
       (λ t, match creator with
             | Some i => bool_decide (createdBy t = i)
             | None => true
             end
             && match statusName with
                | Some s => String.eqb (Status_string (status t)) s
                | None => true
                end)
       coll).

Inductive DashboardData :=
| AdminDashboard (totalUsers totalTickets openTickets inProgressTickets : nat)
    (recentTickets : list Ticket)
| UserDashboard (myTickets openTickets inProgressTickets resolvedTickets : nat)
    (recentTickets : list Ticket).

Inductive UserBody :=
| UserMessage (message : string)
| UserWithStats (account : User.t) (ticketStats : Overview)
| Dashboard (data : DashboardData).

Record UserResponse := mkUserResponse {
  userStatusCode : Z;
  userJson : UserBody
}.

(** Get user by ID (admin only), with the statistics of the tickets the user
    created. *)
Definition getUserById (env : Env) (db : DB) (req : Req.t) : DB * UserResponse :=
  match findUserById (Users db) (Req.params_id req) with
  | None => (db, mkUserResponse 404 (UserMessage "User not found"))
  | Some account =>
      (* Get user's ticket statistics *)
      let ticketStats :=
        aggregateOverview
          (filter (λ t, createdBy t = User.id account) (Tickets db)) in
      (db,
       mkUserResponse 200
         (UserWithStats account (default (mkOverview 0 0 0 0 0) (head ticketStats))))
  end.

(** Get user dashboard data. *)
Definition getDashboardData (env : Env) (db : DB) (req : Req.t) : DB * UserResponse :=
  let userId := User.id (Req.user req) in
  let userRole := User.role (Req.user req) in
  let dashboardData :=
    if bool_decide (userRole = admin) then
      (* Admin dashboard data *)
      AdminDashboard
        (length (filter (λ u, User.isActive u = true) (Users db)))
        (countTickets None None (Tickets db))
        (countTickets None (Some "Open") (Tickets db))
        (countTickets None (Some "In Progress") (Tickets db))
        (take 10 (sortCreatedAtDesc (Tickets db)))
    else
      (* User dashboard data *)
      UserDashboard
        (countTickets (Some userId) None (Tickets db))
        (countTickets (Some userId) (Some "Open") (Tickets db))
        (countTickets (Some userId) (Some "In Progress") (Tickets db))
        (countTickets (Some userId) (Some "Resolved") (Tickets db))
        (take 10 (sortCreatedAtDesc (filter (λ t, createdBy t = userId) (Tickets db))))
  in
  (db, mkUserResponse 200 (Dashboard dashboardData)).

(** ** How a stored ticket may change *)

(** [t'] is [t] later on: the same document, by the same creator, with the
    comments of [t] and possibly more after them. *)
Definition grownFrom (t t' : Ticket) : Prop :=
  _id t' = _id t ∧ createdBy t' = createdBy t ∧ comments t `prefix_of` comments t'.

(** An update by an admin whose patch names [createdBy], or has a key
    outside the scalar paths: [comments], a dotted path into the comments,
    an operator. *)
Definition overwrites (c : Call) : Prop :=
  callRoute c = PUT_tickets_id ∧
  User.role (Req.user (callReq c)) = admin ∧
  (is_Some (Req.body (callReq c) !! "createdBy") ∨
   ¬ scalarPatch (Req.body (callReq c))).

(** ** Calendar days *)

(** The calendar fields are in their ranges. *)
Definition validDate (d : Date) : Prop :=
  0 ≤ getMonth d ≤ 11 ∧ 1 ≤ getDate d ≤ 31 ∧ 0 ≤ getMillisOfDay d ≤ 86399999.

Definition sameDay (a b : Date) : Prop :=
  getFullYear a = getFullYear b ∧ getMonth a = getMonth b ∧ getDate a = getDate b.

(** The keys of the body that [createTicket] reads. *)
Definition draftFields : list string :=
  ["title"; "description"; "category"; "priority"; "impact"; "urgency"; "tags"].

(** ** Sample data for the scenarios of the rest of the server *)

Module Scenario.

(** A verifier that reads the user id off the token itself. *)
Definition verify (token : string) : JwtResult :=
  if String.eqb token "" then JsonWebTokenError
  else if String.eqb token "expired" then TokenExpiredError
  else Decoded token.

Definition raw (header : option string) (i : oid) (fields : list (string * JS.value))
    : Raw.t :=
  Raw.mk header i (list_to_map fields) None [].

Definition bearer (u : User.t) : option string := Some ("Bearer " +:+ User.id u).

(** dave has left: his account is deactivated. *)
Definition dave : User.t := User.mk "64b7f0c2a1d3e4f5a6b7c804" user false.

(** A second ticket of alice's, resolved and assigned to bob, one day later. *)
Definition resolvedTicket : Ticket :=
  mkTicket Sample.t2 (Some "TKT-20240102-0001") "VPN drops every hour"
    "The VPN client disconnects after about sixty minutes" "Network Issue" High
    Resolved (User.id Sample.alice) (Some (User.id Sample.bob)) [] [] None None None
    None [] LevelLow LevelLow (mkDate 2024 0 2 1000) (mkDate 2024 0 2 9000).

Definition db : DB :=
  mkDB [Sample.ticket; resolvedTicket] [Sample.alice; Sample.bob; Sample.carol; dave].

(** bob's draft of 3 January 2024. *)
Definition bobOpens : Req.t :=
  Sample.request Sample.bob ""
    [ ("title", JS.Str "Laptop fan is loud");
      ("description", JS.Str "The fan runs at full speed all day");
      ("category", JS.Str "Hardware Problem") ].

Definition thirdOfJanuary : Env := mkEnv (mkDate 2024 0 3 500) Sample.t3 false.

(** carol reopens the resolved ticket. *)
Definition carolReopens : Req.t :=
  Req.mk Sample.carol Sample.t2 {[ "status" := JS.Str "Open" ]} None [].

(** carol clears the assignment of the resolved ticket. *)
Definition carolUnassigns : Req.t :=
  Sample.request Sample.carol Sample.t2 [("assignedTo", JS.Null)].

(** carol hands the open ticket, through an update, to an id that is
    well-formed and resolves to no user. *)
Definition carolHandsOver : Req.t :=
  Req.mk Sample.carol Sample.t1 {[ "assignedTo" := JS.Str "64b7f0c2a1d3e4f5a6b7c8ee" ]}
    None [].

End Scenario.

(** * Properties *)

(** ** The JavaScript primitives on the inputs of the numbering hook *)

Example split_ticket_number :
  JS.split "-" "TKT-20240101-0001" = ["TKT"; "20240101"; "0001"].
Proof. reflexivity. Qed.

Example parseInt_examples :
  JS.parseInt (Some "0001") = JS.Num 1 ∧
  JS.parseInt (Some "  -12ab") = JS.Num (-12) ∧
  JS.parseInt (Some "0x1F") = JS.Num 31 ∧
  JS.parseInt (Some "0NaN") = JS.Num 0 ∧
  JS.parseInt (Some "") = JS.NaN ∧
  JS.parseInt None = JS.NaN.
Proof. vm_compute. done. Qed.

Example padStart_examples :
  JS.padStart 4 "0" (JS.String_ (JS.Num 7)) = "0007" ∧
  JS.padStart 4 "0" (JS.String_ JS.NaN) = "0NaN" ∧
  JS.padStart 4 "0" (JS.String_ (JS.Num 12345)) = "12345".
Proof. vm_compute. done. Qed.

Example trim_examples :
  JS.trim "  a b  " = "a b" ∧ JS.trim "   " = "" ∧
  JS.toLowerCase "VPN, Wifi" = "vpn, wifi".
Proof. vm_compute. done. Qed.

(** ** Collections *)

Section Collections.

Implicit Types (coll : list Ticket) (t x : Ticket) (i j : oid).

Lemma findById_Some coll i t :
  findById coll i = Some t → _id t = i ∧ t ∈ coll.
Proof.
  intros H. apply List.find_some in H as [Hin Hid].
  split; [by apply bool_decide_eq_true in Hid | by apply list_elem_of_In].
Qed.

Lemma findById_cons coll x i :
  findById (x :: coll) i = if bool_decide (_id x = i) then Some x else findById coll i.
Proof. reflexivity. Qed.

Lemma findById_app coll x i t :
  findById coll i = Some t → findById (coll ++ [x]) i = Some t.
Proof.
  induction coll as [|y coll IH]; [done|].
  rewrite <- app_comm_cons, !findById_cons. by case_bool_decide.
Qed.

Lemma findById_replaceById_eq coll t t' :
  findById coll (_id t') = Some t → findById (replaceById t' coll) (_id t') = Some t'.
Proof.
  induction coll as [|y coll IH]; [done|].
  unfold replaceById in *. rewrite fmap_cons, !findById_cons.
  case_bool_decide as Hy.
  - intros _. by rewrite bool_decide_true.
  - intros H. rewrite bool_decide_false by done. by apply IH.
Qed.

Lemma findById_replaceById_ne coll t' j :
  j ≠ _id t' → findById (replaceById t' coll) j = findById coll j.
Proof.
  intros Hj. induction coll as [|y coll IH]; [done|].
  unfold replaceById in *. rewrite fmap_cons, !findById_cons, IH.
  destruct (bool_decide (_id y = _id t')) eqn:Hy.
  - apply bool_decide_eq_true in Hy.
    rewrite !bool_decide_false; [done|congruence|congruence].
  - done.
Qed.

End Collections.

(** ** Statistics *)

Section Statistics.

Implicit Types (coll : list Ticket) (t : Ticket).

Lemma sumStatus_cons name t coll :
  sumStatus name (t :: coll) =
    ((if String.eqb (Status_string (status t)) name then 1 else 0)
     + sumStatus name coll)%nat.
Proof. reflexivity. Qed.

Lemma waitingTickets_cons t coll :
  waitingTickets (t :: coll) =
    ((if decide (status t = WaitingForResponse) then 1 else 0)
     + waitingTickets coll)%nat.
Proof.
  unfold waitingTickets. rewrite filter_cons. by case_decide.
Qed.

(** Every document is counted by exactly one of the four counters or is
    waiting for a response. *)
Lemma status_counters_partition coll :
  (sumStatus "Open" coll + sumStatus "In Progress" coll
   + sumStatus "Resolved" coll + sumStatus "Closed" coll
   + waitingTickets coll = length coll)%nat.
Proof.
  induction coll as [|t coll IH]; [done|].
  rewrite !sumStatus_cons, waitingTickets_cons. cbn [length].
  destruct (status t); cbn; case_decide; try done; lia.
Qed.

Lemma total_counts_all coll : sum_list ((λ _, 1%nat) <$> coll) = length coll.
Proof. induction coll as [|t coll IH]; [done|]. cbn. by rewrite IH. Qed.

Lemma sumStatus_waiting_nowhere coll :
  Forall (λ t, status t = WaitingForResponse) coll →
  sumStatus "Open" coll = 0%nat ∧ sumStatus "In Progress" coll = 0%nat ∧
  sumStatus "Resolved" coll = 0%nat ∧ sumStatus "Closed" coll = 0%nat.
Proof.
  induction 1 as [|t coll Ht _ IH]; [done|].
  rewrite !sumStatus_cons, Ht. cbn. tauto.
Qed.

End Statistics.

(** C10.  [getTicketStats] answers 200 with an overview whose [totalTickets]
    is the number of documents and which has counters for Open, In Progress,
    Resolved and Closed only: the four counters add up to [totalTickets]
    less the number of tickets waiting for a response, so each of these is
    in the total and in none of the four. *)
Theorem getTicketStats_counters (env : Env) (db : DB) (req : Req.t) :
  ∃ ov priorities cats,
    getTicketStats env db req = (db, mkResponse 200 (Statistics ov priorities cats)) ∧
    totalTickets ov = length (Tickets db) ∧
    (openTickets ov + inProgressTickets ov + resolvedTickets ov + closedTickets ov
     = totalTickets ov - waitingTickets (Tickets db))%nat ∧
    (waitingTickets (Tickets db) ≤ totalTickets ov)%nat.
Proof.
  unfold getTicketStats. do 3 eexists. split; [reflexivity|].
  pose proof (status_counters_partition (Tickets db)) as Hpart.
  destruct (Tickets db) as [|t coll].
  - by cbn.
  - cbn [aggregateOverview head default id totalTickets openTickets inProgressTickets
         resolvedTickets closedTickets].
    rewrite total_counts_all. repeat split; lia.
Qed.

(** ** Access to a ticket *)

Section Access.

Implicit Types (env : Env) (db : DB) (req : Req.t) (ticket : Ticket).

Lemma stranger_test req ticket :
  stranger req ticket →
  negb (isAdmin req) && negb (isOwner ticket req) && negb (isAssigned ticket req) = true.
Proof.
  intros (Hrole & Hown & Hass). unfold isAdmin, isOwner, isAssigned.
  rewrite !bool_decide_false by done.
  destruct (assignedTo ticket) as [a|]; [|done].
  rewrite bool_decide_false; [done|congruence].
Qed.

Lemma permitted_test req ticket :
  User.role (Req.user req) = admin ∨
  createdBy ticket = User.id (Req.user req) ∨
  assignedTo ticket = Some (User.id (Req.user req)) →
  negb (isAdmin req) && negb (isOwner ticket req) && negb (isAssigned ticket req) = false.
Proof.
  unfold isAdmin, isOwner, isAssigned. intros [H|[H|H]].
  - by rewrite bool_decide_true.
  - rewrite (bool_decide_true (createdBy _ = _)) by done.
    by rewrite andb_false_r.
  - rewrite H, (bool_decide_true (User.id _ = _)) by done.
    by rewrite andb_false_r.
Qed.

Lemma checkTicketAccess_next (next : Handler) env db req :
  checkTicketAccess next env db req = next env db req.
Proof. unfold checkTicketAccess. by case_bool_decide. Qed.

(** A permitted actor, of whatever role, is answered with the stored
    document as it is, all its comments included. *)
Lemma getTicketById_permitted env db req ticket :
  findById (Tickets db) (Req.params_id req) = Some ticket →
  User.role (Req.user req) = admin ∨
  createdBy ticket = User.id (Req.user req) ∨
  assignedTo ticket = Some (User.id (Req.user req)) →
  getTicketById env db req = (db, mkResponse 200 (TicketOnly ticket)).
Proof.
  intros Hfind Hperm. unfold getTicketById.
  by rewrite Hfind, permitted_test.
Qed.

End Access.

(** C1, on the code: the creator of a ticket, who is no admin, reads the
    ticket through [GET /api/tickets/:id] and is answered with every comment
    of the document, the one whose [isInternal] flag is true included: the
    handler sends the document as stored and filters nothing by role. *)
Theorem getTicketById_shows_internal_comment_to_owner :
  User.role Sample.alice = user ∧
  createdBy Sample.ticket = User.id Sample.alice ∧
  Comment.isInternal Sample.internalNote = true ∧
  ∃ ticket,
    router GET_tickets_id (Sample.env 7000 "") Sample.db
      (Sample.request Sample.alice Sample.t1 [])
    = (Sample.db, mkResponse 200 (TicketOnly ticket)) ∧
    Sample.internalNote ∈ comments ticket.
Proof.
  repeat split. exists Sample.ticket. split.
  - cbn [router]. rewrite checkTicketAccess_next.
    apply getTicketById_permitted; [reflexivity|]. right; left. reflexivity.
  - cbn. set_solver.
Qed.

(** An admin is answered with the internal comments as well. *)
Lemma getTicketById_admin_sees_comments env db req ticket c :
  findById (Tickets db) (Req.params_id req) = Some ticket →
  User.role (Req.user req) = admin →
  c ∈ comments ticket →
  ∃ ticket',
    router GET_tickets_id env db req = (db, mkResponse 200 (TicketOnly ticket')) ∧
    c ∈ comments ticket'.
Proof.
  intros Hfind Hrole Hc. exists ticket. split; [|done].
  cbn [router]. rewrite checkTicketAccess_next.
  apply getTicketById_permitted; auto.
Qed.

(** The routes that act on one ticket on behalf of any authenticated user. *)
Lemma guarded_routes r :
  r ∈ [GET_tickets_id; PUT_tickets_id; POST_tickets_id_comments] →
  r = GET_tickets_id ∨ r = PUT_tickets_id ∨ r = POST_tickets_id_comments.
Proof. rewrite !elem_of_cons, elem_of_nil. tauto. Qed.

(** C5, as stated, fails: bob, a stranger to alice's ticket, is answered
    403 'Access denied' for its id and 404 'Ticket not found' for an id that
    resolves to nothing, so the two answers tell him that the ticket exists. *)
Lemma denied_differs_from_not_found :
  stranger (Sample.request Sample.bob Sample.t1 []) Sample.ticket ∧
  findById (Tickets Sample.db) Sample.t1 = Some Sample.ticket ∧
  findById (Tickets Sample.db) Sample.missing = None ∧
  Forall (λ r,
    let denied :=
      router r (Sample.env 7000 "") Sample.db (Sample.request Sample.bob Sample.t1 []) in
    let notFound :=
      router r (Sample.env 7000 "") Sample.db (Sample.request Sample.bob Sample.missing []) in
    denied ≠ notFound ∧ statusCode denied.2 = 403 ∧ statusCode notFound.2 = 404)
    [GET_tickets_id; PUT_tickets_id; POST_tickets_id_comments].
Proof.
  split; [|split; [|split]].
  - repeat split; cbn; congruence.
  - reflexivity.
  - reflexivity.
  - repeat constructor; vm_compute; congruence.
Qed.

(** C5, amended.  On the routes that read, update or comment one ticket, a
    stranger to an existing ticket is answered 403 'Access denied' (or, on
    the two writing routes, 400 'Validation failed' when the body did not
    validate): an answer that carries nothing of the ticket, with the store
    left as it was.  An id that resolves to no ticket is answered 404
    'Ticket not found' instead. *)
Theorem stranger_is_denied r env db req ticket :
  r ∈ [GET_tickets_id; PUT_tickets_id; POST_tickets_id_comments] →
  findById (Tickets db) (Req.params_id req) = Some ticket →
  stranger req ticket →
  (router r env db req = (db, mkResponse 403 (Message "Access denied")) ∨
   (r ≠ GET_tickets_id ∧ Req.validationErrors req ≠ [] ∧
    router r env db req
    = (db, mkResponse 400 (ValidationFailed (Req.validationErrors req))))) ∧
  ∀ req',
    findById (Tickets db) (Req.params_id req') = None →
    Req.validationErrors req' = [] →
    router r env db req' = (db, mkResponse 404 (Message "Ticket not found")).
Proof.
  intros Hr Hfind Hstr. apply stranger_test in Hstr.
  apply guarded_routes in Hr as [->|[->| ->]]; cbn [router];
    rewrite checkTicketAccess_next; split.
  - left. unfold getTicketById. by rewrite Hfind, Hstr.
  - intros req' Hnone _. rewrite checkTicketAccess_next.
    unfold getTicketById. by rewrite Hnone.
  - unfold updateTicket. case_bool_decide as Hval.
    + right. by repeat split.
    + left. by rewrite Hfind, Hstr.
  - intros req' Hnone Hval. rewrite checkTicketAccess_next.
    unfold updateTicket. rewrite bool_decide_false by (by rewrite Hval; intros []).
    by rewrite Hnone.
  - unfold addComment. case_bool_decide as Hval.
    + right. by repeat split.
    + left. by rewrite Hfind, Hstr.
  - intros req' Hnone Hval. rewrite checkTicketAccess_next.
    unfold addComment. rewrite bool_decide_false by (by rewrite Hval; intros []).
    by rewrite Hnone.
Qed.

Lemma stranger_is_denied_witness :
  let db := Sample.db in
  let env := Sample.env 7000 "" in
  let req := Sample.request Sample.bob Sample.t1 [] in
  (router GET_tickets_id env db req = (db, mkResponse 403 (Message "Access denied")) ∨
   (GET_tickets_id ≠ GET_tickets_id ∧ Req.validationErrors req ≠ [] ∧
    router GET_tickets_id env db req
    = (db, mkResponse 400 (ValidationFailed (Req.validationErrors req))))) ∧
  ∀ req',
    findById (Tickets db) (Req.params_id req') = None →
    Req.validationErrors req' = [] →
    router GET_tickets_id env db req' = (db, mkResponse 404 (Message "Ticket not found")).
Proof.
  apply (stranger_is_denied GET_tickets_id (Sample.env 7000 "") Sample.db
           (Sample.request Sample.bob Sample.t1 []) Sample.ticket).
  - apply list_elem_of_here.
  - reflexivity.
  - repeat split; cbn; congruence.
Defined.

(** ** Saving a stored document *)

Section Save.

Implicit Types (coll : list Ticket) (t o : Ticket) (now : Date).

(** The numbering hook leaves a document that has its number alone. *)
Lemma preSaveTicketNumber_assigned now coll t :
  JS.truthyString (ticketNumber t) = true → preSaveTicketNumber now coll t = t.
Proof. intros H. unfold preSaveTicketNumber. by rewrite H. Qed.

(** The timestamp hook writes [resolvedAt] or [closedAt] and nothing else. *)
Lemma preSaveTimestamps_writes statusModified now t :
  ∃ r c, preSaveTimestamps statusModified now t = set_closedAt c (set_resolvedAt r t).
Proof.
  unfold preSaveTimestamps.
  destruct statusModified; [|exists (resolvedAt t), (closedAt t); by destruct t].
  repeat case_match.
  - exists (Some now), (closedAt t). by destruct t.
  - exists (resolvedAt t), (Some now). by destruct t.
  - exists (resolvedAt t), (closedAt t). by destruct t.
Qed.

Lemma preSaveTimestamps_status statusModified now t :
  status (preSaveTimestamps statusModified now t) = status t.
Proof. by destruct (preSaveTimestamps_writes statusModified now t) as (r & c & ->). Qed.

Lemma preSaveTimestamps_ticketNumber statusModified now t :
  ticketNumber (preSaveTimestamps statusModified now t) = ticketNumber t.
Proof. by destruct (preSaveTimestamps_writes statusModified now t) as (r & c & ->). Qed.

Lemma preSaveTimestamps_id statusModified now t :
  _id (preSaveTimestamps statusModified now t) = _id t.
Proof. by destruct (preSaveTimestamps_writes statusModified now t) as (r & c & ->). Qed.

Lemma preSaveTimestamps_assignedTo statusModified now t :
  assignedTo (preSaveTimestamps statusModified now t) = assignedTo t.
Proof. by destruct (preSaveTimestamps_writes statusModified now t) as (r & c & ->). Qed.

Lemma preSaveTimestamps_comments statusModified now t :
  comments (preSaveTimestamps statusModified now t) = comments t.
Proof. by destruct (preSaveTimestamps_writes statusModified now t) as (r & c & ->). Qed.

Lemma saved_fields now o t :
  _id (saved now o t) = _id t ∧ ticketNumber (saved now o t) = ticketNumber t ∧
  status (saved now o t) = status t ∧ assignedTo (saved now o t) = assignedTo t ∧
  comments (saved now o t) = comments t.
Proof.
  unfold saved. cbn.
  by rewrite preSaveTimestamps_id, preSaveTimestamps_ticketNumber,
    preSaveTimestamps_status, preSaveTimestamps_assignedTo, preSaveTimestamps_comments.
Qed.

(** The validation refuses a document without its number, before any hook
    runs.  Saving a document that has its number and was read from the
    collection succeeds and replaces the stored document. *)
Lemma save_unnumbered now coll loaded t :
  JS.truthyString (ticketNumber t) = false → save now coll loaded t = Thrown ValidationError.
Proof. intros Hnone. unfold save, validateBeforeSave. by rewrite Hnone. Qed.

Lemma save_loaded now coll o t :
  JS.truthyString (ticketNumber t) = true →
  ticketNumber t = ticketNumber o →
  save now coll (Some o) t = Returned (replaceById (saved now o t) coll, saved now o t).
Proof.
  intros Hnum Heq. unfold save, validateBeforeSave. rewrite Hnum.
  cbn [mbind Outcome_bind].
  rewrite preSaveTicketNumber_assigned by done. fold (saved now o t).
  destruct (saved_fields now o t) as (_ & Hn & _).
  rewrite (bool_decide_false (ticketNumber o ≠ _)); [done|].
  rewrite Hn, Heq. tauto.
Qed.

End Save.

(** ** Assignment *)

(** A request that names no existing user is refused and changes nothing. *)
Lemma assignTicket_refused env db req :
  requestedAssignee db req = None → (assignTicket env db req).1 = db.
Proof.
  unfold requestedAssignee, assignTicket.
  destruct (findById (Tickets db) (Req.params_id req)) as [ticket|]; [|done].
  destruct (Req.body req !! "assignedTo") as [v|] eqn:Hv; [|done].
  destruct (JS.truthy (Some v)) eqn:Htruthy; [|done].
  destruct v as [| b | n | i]; try done.
  cbn [castObjectId mbind option_bind].
  destruct (findUserById (Users db) i) as [u|]; [done|].
  intros _. by rewrite bool_decide_true.
Qed.

(** C8.  [assignTicket] with an existing user as assignee moves an Open
    ticket to In Progress and leaves any other status as it is; clearing the
    assignment never changes the status.  In both cases the answer is 200
    with the saved ticket, which is also what the store then holds. *)
Theorem assignTicket_status env db req ticket target :
  findById (Tickets db) (Req.params_id req) = Some ticket →
  JS.truthyString (ticketNumber ticket) = true →
  requestedAssignee db req = Some target →
  ∃ ticket',
    assignTicket env db req
    = (withTickets (replaceById ticket' (Tickets db)) db,
       mkResponse 200
         (MessageTicket "Ticket assignment updated successfully" (Some ticket'))) ∧
    findById (replaceById ticket' (Tickets db)) (Req.params_id req) = Some ticket' ∧
    assignedTo ticket' = target ∧
    status ticket' =
      match target with
      | Some _ => if decide (status ticket = Open) then InProgress else status ticket
      | None => status ticket
      end.
Proof.
  intros Hfind Hnum Hreq.
  pose proof (findById_Some _ _ _ Hfind) as [Hid _].
  unfold requestedAssignee in Hreq. unfold assignTicket. rewrite Hfind.
  destruct (JS.truthy (Req.body req !! "assignedTo")) eqn:Htruthy.
  - destruct (Req.body req !! "assignedTo") as [[| b | n | i]|]; try done.
    destruct (findUserById (Users db) i) as [u|] eqn:Hu; [|done].
    injection Hreq as <-.
    cbn [castObjectId mbind option_bind andb]. rewrite Hu.
    rewrite bool_decide_false by done.
    set (ticket2 := if bool_decide (status (set_assignedTo (Some i) ticket) = Open)
                    then set_status InProgress (set_assignedTo (Some i) ticket)
                    else set_assignedTo (Some i) ticket).
    assert (ticketNumber ticket2 = ticketNumber ticket ∧ _id ticket2 = _id ticket ∧
            assignedTo ticket2 = Some i ∧
            status ticket2 = if decide (status ticket = Open) then InProgress
                             else status ticket) as (Hn2 & Hid2 & Ha2 & Hs2).
    { unfold ticket2. cbn [status set_assignedTo]. case_bool_decide; case_decide; done. }
    rewrite save_loaded by (by rewrite ?Hn2).
    destruct (saved_fields (now env) ticket ticket2) as (Hi & _ & Hs & Ha & _).
    exists (saved (now env) ticket ticket2). repeat split.
    + replace (Req.params_id req) with (_id (saved (now env) ticket ticket2))
        by congruence.
      apply findById_replaceById_eq with ticket. by rewrite Hi, Hid2, Hid.
    + by rewrite Ha.
    + by rewrite Hs.
  - injection Hreq as <-.
    assert (match Req.body req !! "assignedTo" with
            | Some v => Returned None
            | None => Returned None
            end = @Returned (option oid) None) as -> by by case_match.
    cbn [andb].
    rewrite save_loaded by done.
    destruct (saved_fields (now env) ticket (set_assignedTo None ticket))
      as (Hi & _ & Hs & Ha & _).
    exists (saved (now env) ticket (set_assignedTo None ticket)). repeat split.
    + replace (Req.params_id req)
        with (_id (saved (now env) ticket (set_assignedTo None ticket)))
        by (by rewrite Hi).
      apply findById_replaceById_eq with ticket. rewrite Hi. cbn [_id set_assignedTo].
      by rewrite Hid.
    + by rewrite Ha.
    + by rewrite Hs.
Qed.

Lemma assignTicket_status_witness :
  ∃ ticket',
    assignTicket (Sample.env 7000 "") Sample.db Sample.assignBob
    = (withTickets (replaceById ticket' (Tickets Sample.db)) Sample.db,
       mkResponse 200
         (MessageTicket "Ticket assignment updated successfully" (Some ticket'))) ∧
    findById (replaceById ticket' (Tickets Sample.db)) (Req.params_id Sample.assignBob)
    = Some ticket' ∧
    assignedTo ticket' = Some (User.id Sample.bob) ∧
    status ticket' =
      match Some (User.id Sample.bob) with
      | Some _ =>
          if decide (status Sample.ticket = Open) then InProgress
          else status Sample.ticket
      | None => status Sample.ticket
      end.
Proof.
  apply (assignTicket_status (Sample.env 7000 "") Sample.db Sample.assignBob
           Sample.ticket (Some (User.id Sample.bob))).
  - reflexivity.
  - reflexivity.
  - vm_compute. reflexivity.
Defined.

(** ** Comments *)

(** C9.  For a permitted actor whose comment the schema accepts,
    [addComment] stores, as the last comment of the ticket, a comment whose
    [isInternal] flag is the requested one for an admin and false for anyone
    else, whatever was requested; the request is answered 200 with that
    comment. *)
Theorem addComment_effective_isInternal env db req ticket message wants :
  Req.validationErrors req = [] →
  findById (Tickets db) (Req.params_id req) = Some ticket →
  JS.truthyString (ticketNumber ticket) = true →
  User.role (Req.user req) = admin ∨
  createdBy ticket = User.id (Req.user req) ∨
  assignedTo ticket = Some (User.id (Req.user req)) →
  requiredText 1000 (Req.body req !! "message") = Returned message →
  (User.role (Req.user req) = admin → wantsInternal req = Returned wants) →
  let comment :=
    Comment.mk (User.id (Req.user req)) message
      (wants && bool_decide (User.role (Req.user req) = admin)) (now env) in
  ∃ ticket',
    addComment env db req
    = (withTickets (replaceById ticket' (Tickets db)) db,
       mkResponse 200 (MessageComment "Comment added successfully" (Some comment))) ∧
    findById (replaceById ticket' (Tickets db)) (Req.params_id req) = Some ticket' ∧
    comments ticket' = comments ticket ++ [comment].
Proof.
  intros Hval Hfind Hnum Hperm Hmsg Hwants comment.
  pose proof (findById_Some _ _ _ Hfind) as [Hid _].
  unfold addComment.
  rewrite bool_decide_false by (by rewrite Hval; intros []).
  rewrite Hfind, permitted_test by done.
  assert (newComment env req
            (if isAdmin req then default (JS.Bool false) (Req.body req !! "isInternal")
             else JS.Bool false) = Returned comment) as ->.
  { unfold newComment, comment, isAdmin. rewrite Hmsg. cbn [mbind Outcome_bind].
    case_bool_decide as Hrole.
    - unfold wantsInternal in Hwants. rewrite Hwants by done.
      by rewrite andb_true_r.
    - by rewrite andb_false_r. }
  cbn [mbind Outcome_bind].
  set (ticket1 := set_comments (comments ticket ++ [comment]) ticket).
  rewrite save_loaded by done.
  destruct (saved_fields (now env) ticket ticket1) as (Hi & _ & _ & _ & Hc).
  exists (saved (now env) ticket ticket1). repeat split.
  - rewrite Hc. cbn [comments ticket1 set_comments]. by rewrite last_snoc.
  - replace (Req.params_id req) with (_id (saved (now env) ticket ticket1))
      by (by rewrite Hi).
    apply findById_replaceById_eq with ticket. rewrite Hi.
    cbn [_id ticket1 set_comments]. by rewrite Hid.
  - by rewrite Hc.
Qed.

Lemma addComment_effective_isInternal_witness :
  let comment :=
    Comment.mk (User.id Sample.alice) "Any news?"
      (true && bool_decide (User.role Sample.alice = admin)) (now (Sample.env 7000 "")) in
  ∃ ticket',
    addComment (Sample.env 7000 "") Sample.db Sample.aliceComments
    = (withTickets (replaceById ticket' (Tickets Sample.db)) Sample.db,
       mkResponse 200 (MessageComment "Comment added successfully" (Some comment))) ∧
    findById (replaceById ticket' (Tickets Sample.db)) (Req.params_id Sample.aliceComments)
    = Some ticket' ∧
    comments ticket' = comments Sample.ticket ++ [comment].
Proof.
  apply (addComment_effective_isInternal (Sample.env 7000 "") Sample.db
           Sample.aliceComments Sample.ticket "Any news?" true).
  - reflexivity.
  - reflexivity.
  - reflexivity.
  - right; left. reflexivity.
  - vm_compute. reflexivity.
  - intros H. discriminate H.
Defined.

(** The downgrade at work: alice asked for an internal comment and the
    stored comment is not internal. *)
Example addComment_downgrades_alice :
  ∃ comment,
    json (addComment (Sample.env 7000 "") Sample.db Sample.aliceComments).2
    = MessageComment "Comment added successfully" (Some comment) ∧
    Comment.isInternal comment = false.
Proof. eexists. split; [vm_compute; reflexivity|reflexivity]. Qed.

(** ** Updates *)

Section Updates.

Implicit Types (updates u : gmap string JS.value) (t ticket : Ticket) (k key : string).

Lemma foldl_delete_lookup (keys : list string) u k :
  foldl (λ u key, if bool_decide (key ∈ allowedFields) then u else delete key u) u keys
    !! k
  = if bool_decide (k ∈ keys ∧ k ∉ allowedFields) then None else u !! k.
Proof.
  revert u. induction keys as [|key keys IH]; intros u; cbn [foldl].
  - rewrite bool_decide_false; [done|]. rewrite elem_of_nil. tauto.
  - rewrite IH. clear IH. destruct (decide (k ∈ allowedFields)) as [Hk|Hk].
    + rewrite (bool_decide_false (k ∈ keys ∧ _)) by tauto.
      rewrite (bool_decide_false (k ∈ key :: keys ∧ _)) by tauto.
      case_bool_decide; [done|].
      apply lookup_delete_ne. congruence.
    + destruct (decide (k ∈ keys)) as [Hin|Hin].
      * rewrite (bool_decide_true (k ∈ keys ∧ _)) by done.
        rewrite (bool_decide_true (k ∈ key :: keys ∧ _)); [done|].
        split; [by right|done].
      * rewrite (bool_decide_false (k ∈ keys ∧ _)) by tauto.
        destruct (decide (k = key)) as [->|Hne].
        -- rewrite (bool_decide_false (key ∈ allowedFields)) by done.
           rewrite lookup_delete_eq, bool_decide_true; [done|]. split; [by left|done].
        -- rewrite (bool_decide_false (k ∈ key :: keys ∧ _)).
           ++ case_bool_decide; [done|]. by apply lookup_delete_ne.
           ++ rewrite elem_of_cons. tauto.
Qed.

(** After the [forEach], the patch holds the allowed keys with the values it
    had for them, and no other key. *)
Lemma restrictUpdates_lookup updates k :
  restrictUpdates updates !! k
  = if bool_decide (k ∈ allowedFields) then updates !! k else None.
Proof.
  unfold restrictUpdates. rewrite foldl_delete_lookup.
  destruct (decide (k ∈ allowedFields)) as [Hk|Hk].
  - rewrite (bool_decide_true (k ∈ allowedFields)) by done.
    rewrite bool_decide_false; [done|tauto].
  - rewrite (bool_decide_false (k ∈ allowedFields)) by done.
    destruct (updates !! k) as [v|] eqn:Hv; [|by case_bool_decide].
    rewrite bool_decide_true; [done|]. split; [|done].
    apply list_elem_of_fmap. exists (k, v). split; [done|].
    by apply elem_of_map_to_list.
Qed.

Lemma restrictUpdates_filter updates :
  restrictUpdates updates = filter (λ kv, kv.1 ∈ allowedFields) updates.
Proof.
  apply map_eq. intros k. rewrite restrictUpdates_lookup.
  destruct (updates !! k) as [v|] eqn:Hv.
  - case_bool_decide.
    + symmetry. by apply map_lookup_filter_Some.
    + symmetry. apply map_lookup_filter_None. right. intros v' Hv'. done.
  - rewrite (proj2 (map_lookup_filter_None _ _ _)); [by case_bool_decide|by left].
Qed.

Lemma allowedFields_test k :
  bool_decide (k ∈ allowedFields)
  = String.eqb k "title" || String.eqb k "description" || String.eqb k "priority".
Proof.
  unfold allowedFields.
  destruct (String.eqb_spec k "title") as [->|H1]; [done|].
  destruct (String.eqb_spec k "description") as [->|H2]; [done|].
  destruct (String.eqb_spec k "priority") as [->|H3]; [done|].
  apply bool_decide_false. rewrite !elem_of_cons, elem_of_nil. tauto.
Qed.

(** What an update writes when only the allowed keys are left: the three
    allowed paths, each cast from the patch or kept. *)
Lemma applyUpdates_restricted updates t a b c :
  patched (requiredText 200) (updates !! "title") (title t) = Returned a →
  patched (requiredText 2000) (updates !! "description") (description t) = Returned b →
  patched castPriority (updates !! "priority") (priority t) = Returned c →
  applyUpdates (restrictUpdates updates) t
  = Returned (set_priority c (set_description b (set_title a t))).
Proof.
  intros Ha Hb Hc. unfold applyUpdates, schemaPaths. cbn [foldl].
  rewrite !restrictUpdates_lookup, !allowedFields_test.
  cbn [String.eqb Ascii.eqb Bool.eqb orb mbind mret Outcome_bind Outcome_ret].
  unfold patched in *.
  destruct (updates !! "title") as [v1|], (updates !! "description") as [v2|],
    (updates !! "priority") as [v3|];
    unfold setPath; cbn [String.eqb Ascii.eqb Bool.eqb];
    rewrite ?Ha; cbn [mbind mret Outcome_bind Outcome_ret];
    rewrite ?Hb; cbn [mbind mret Outcome_bind Outcome_ret];
    rewrite ?Hc; cbn [mbind mret Outcome_bind Outcome_ret];
    simplify_eq; by destruct t.
Qed.

Lemma restrictUpdates_idemp updates :
  restrictUpdates (restrictUpdates updates) = restrictUpdates updates.
Proof.
  apply map_eq. intros k. rewrite !restrictUpdates_lookup. by case_bool_decide.
Qed.

(** For an actor who is no admin, a patch and the patch cut down to the
    allowed keys are served alike, in the answer and in the store: the other
    keys, and whatever values they carry, are dropped without a trace. *)
Lemma updateTicket_non_admin_ignores_disallowed (env : Env) (db : DB) (req : Req.t) :
  User.role (Req.user req) ≠ admin →
  updateTicket env db req
  = updateTicket env db (withBody (restrictUpdates (Req.body req)) req).
Proof.
  intros Hrole. unfold updateTicket, isAdmin, isOwner, isAssigned. cbn.
  rewrite !(bool_decide_false (User.role _ = admin)) by done. cbn.
  by rewrite restrictUpdates_idemp.
Qed.

End Updates.

(** C4.  When a creator or assignee who is no admin updates a ticket, and
    the values that the patch gives for [title], [description] and [priority]
    are ones the schema accepts, the request is answered 200 and the stored
    ticket becomes the old one with those three paths taken from the patch
    (kept where the patch has none) and [updatedAt] refreshed.  Every other
    key of the patch is dropped: whatever the patch says, [status],
    [assignedTo] and every other path keep their stored values. *)
Theorem updateTicket_non_admin_narrowed env db req ticket title' description' priority' :
  Req.validationErrors req = [] →
  findById (Tickets db) (Req.params_id req) = Some ticket →
  User.role (Req.user req) ≠ admin →
  createdBy ticket = User.id (Req.user req) ∨
  assignedTo ticket = Some (User.id (Req.user req)) →
  patched (requiredText 200) (Req.body req !! "title") (title ticket)
  = Returned title' →
  patched (requiredText 2000) (Req.body req !! "description") (description ticket)
  = Returned description' →
  patched castPriority (Req.body req !! "priority") (priority ticket)
  = Returned priority' →
  let ticket' :=
    set_updatedAt (now env)
      (set_priority priority' (set_description description' (set_title title' ticket))) in
  updateTicket env db req
  = (withTickets (replaceById ticket' (Tickets db)) db,
     mkResponse 200 (MessageTicket "Ticket updated successfully" (Some ticket'))) ∧
  findById (replaceById ticket' (Tickets db)) (Req.params_id req) = Some ticket' ∧
  title ticket' = title' ∧ description ticket' = description' ∧
  priority ticket' = priority' ∧
  status ticket' = status ticket ∧ assignedTo ticket' = assignedTo ticket ∧
  _id ticket' = _id ticket ∧ ticketNumber ticket' = ticketNumber ticket ∧
  category ticket' = category ticket ∧ createdBy ticket' = createdBy ticket ∧
  attachments ticket' = attachments ticket ∧ comments ticket' = comments ticket ∧
  resolution ticket' = resolution ticket ∧ resolvedAt ticket' = resolvedAt ticket ∧
  closedAt ticket' = closedAt ticket ∧
  estimatedResolutionTime ticket' = estimatedResolutionTime ticket ∧
  tags ticket' = tags ticket ∧ impact ticket' = impact ticket ∧
  urgency ticket' = urgency ticket ∧ createdAt ticket' = createdAt ticket.
Proof.
  intros Hval Hfind Hrole Hperm Ha Hb Hc ticket'.
  pose proof (findById_Some _ _ _ Hfind) as [Hid _].
  split; [|split; [|by repeat split]].
  - unfold updateTicket.
    rewrite bool_decide_false by (by rewrite Hval; intros []).
    rewrite Hfind, permitted_test by tauto.
    unfold isAdmin. rewrite bool_decide_false by done. cbn [negb].
    unfold findByIdAndUpdate. rewrite Hfind.
    rewrite (applyUpdates_restricted _ _ _ _ _ Ha Hb Hc).
    cbn [mbind Outcome_bind]. fold ticket'.
    rewrite (bool_decide_false (ticketNumber ticket ≠ _)); [done|].
    intros Hne. by apply Hne.
  - replace (Req.params_id req) with (_id ticket') by done.
    apply findById_replaceById_eq with ticket. by rewrite <- Hid in Hfind.
Qed.

Lemma updateTicket_non_admin_narrowed_witness :
  let env := Sample.env 7000 "" in
  let ticket' :=
    set_updatedAt (now env)
      (set_priority High
         (set_description (description Sample.ticket)
            (set_title "Printer on floor 2 is jammed again" Sample.ticket))) in
  updateTicket env Sample.db Sample.aliceEdits
  = (withTickets (replaceById ticket' (Tickets Sample.db)) Sample.db,
     mkResponse 200 (MessageTicket "Ticket updated successfully" (Some ticket'))) ∧
  status ticket' = Open ∧ assignedTo ticket' = None ∧
  ticketNumber ticket' = Some "TKT-20240101-0001".
Proof.
  intros env ticket'.
  destruct (updateTicket_non_admin_narrowed env Sample.db Sample.aliceEdits Sample.ticket
              "Printer on floor 2 is jammed again" (description Sample.ticket) High)
    as (Hanswer & _ & _ & _ & _ & Hstatus & Hassigned & _ & Hnumber & _).
  - reflexivity.
  - reflexivity.
  - discriminate.
  - left. reflexivity.
  - vm_compute. reflexivity.
  - vm_compute. reflexivity.
  - vm_compute. reflexivity.
  - split; [exact Hanswer|]. split; [exact Hstatus|]. split; [exact Hassigned|exact Hnumber].
Defined.

(** ** What an update and a save leave alone *)

Section Frames.

Implicit Types (updates u : gmap string JS.value) (t x : Ticket) (coll : list Ticket).

Ltac cast_cases :=
  repeat match goal with
  | H : context [mbind _ ?m] |- _ => destruct m eqn:?; cbn in H
  end; unfold mret, Outcome_ret in *; simplify_eq.

Lemma setPath_frame key v t t' :
  setPath key v t = Returned t' →
  _id t' = _id t ∧ resolvedAt t' = resolvedAt t ∧ closedAt t' = closedAt t ∧
  (key ≠ "ticketNumber" → ticketNumber t' = ticketNumber t) ∧
  (key ≠ "status" → status t' = status t).
Proof.
  unfold setPath. intros H.
  repeat match type of H with
  | (if String.eqb ?k ?s then _ else _) = _ =>
      destruct (String.eqb_spec k s) as [?|?];
      [cast_cases; repeat split; intros; (done || congruence)|]
  end.
  injection H as <-. by repeat split.
Qed.

Lemma applyUpdates_fold (P : Ticket → Prop) u keys acc t' :
  (∀ key v x x', u !! key = Some v → P x → setPath key v x = Returned x' → P x') →
  (∀ x, acc = Returned x → P x) →
  foldl (λ acc key,
           t' ← acc;
           match u !! key with
           | Some v => setPath key v t'
           | None => mret t'
           end) acc keys = Returned t' →
  P t'.
Proof.
  intros Hstep. revert acc.
  induction keys as [|key keys IH]; intros acc Hacc; cbn [foldl]; [by auto|].
  apply IH. intros x Hx. destruct acc as [y|e]; [|done].
  cbn in Hx. destruct (u !! key) as [v|] eqn:Hv.
  - by eapply Hstep; [| |exact Hx]; eauto.
  - injection Hx as <-. auto.
Qed.

(** An update keeps the identifier and the two lifecycle timestamps, keeps
    the number unless the patch names it, and keeps the status unless the
    patch names it. *)
Lemma applyUpdates_frame u t t' :
  applyUpdates u t = Returned t' →
  _id t' = _id t ∧ resolvedAt t' = resolvedAt t ∧ closedAt t' = closedAt t ∧
  (u !! "ticketNumber" = None → ticketNumber t' = ticketNumber t) ∧
  (u !! "status" = None → status t' = status t).
Proof.
  unfold applyUpdates. intros H.
  apply (applyUpdates_fold
           (λ x, _id x = _id t ∧ resolvedAt x = resolvedAt t ∧ closedAt x = closedAt t ∧
                 (u !! "ticketNumber" = None → ticketNumber x = ticketNumber t) ∧
                 (u !! "status" = None → status x = status t))
           u schemaPaths (mret t) t'); [| |exact H]; clear H.
  - intros key v x x' Hv (Hi & Hr & Hc & Hn & Hs) Hset.
    destruct (setPath_frame _ _ _ _ Hset) as (Hi' & Hr' & Hc' & Hn' & Hs').
    rewrite Hi', Hr', Hc'. repeat split; try done.
    + intros Hnone. rewrite Hn' by congruence. auto.
    + intros Hnone. rewrite Hs' by congruence. auto.
  - intros x [= <-]. done.
Qed.

Lemma findByIdAndUpdate_result now coll i u coll' r :
  findByIdAndUpdate now coll i u = Returned (coll', r) →
  match findById coll i, r with
  | Some t, Some t' =>
      coll' = replaceById t' coll ∧ _id t' = i ∧
      resolvedAt t' = resolvedAt t ∧ closedAt t' = closedAt t ∧
      (u !! "ticketNumber" = None → ticketNumber t' = ticketNumber t) ∧
      (u !! "status" = None → status t' = status t)
  | None, None => coll' = coll
  | _, _ => False
  end.
Proof.
  unfold findByIdAndUpdate. destruct (findById coll i) as [t|] eqn:Hfind.
  - destruct (applyUpdates u t) as [t1|e] eqn:Happly; [|done].
    cbn [mbind Outcome_bind]. case_match; [done|]. intros [= <- <-].
    destruct (applyUpdates_frame _ _ _ Happly) as (Hi & Hr & Hc & Hn & Hs).
    destruct (findById_Some _ _ _ Hfind) as [Hid _].
    repeat split; cbn; auto; congruence.
  - by intros [= <- <-].
Qed.

(** What [save] writes: the document keeps its identifier, keeps the
    number it has, and replaces the stored one or, when new, is appended. *)
Lemma save_result now coll loaded t coll' t' :
  save now coll loaded t = Returned (coll', t') →
  _id t' = _id t ∧
  (JS.truthyString (ticketNumber t) = true → ticketNumber t' = ticketNumber t) ∧
  coll' = match loaded with
          | Some _ => replaceById t' coll
          | None => coll ++ [t']
          end.
Proof.
  unfold save, validateBeforeSave. intros H.
  destruct (JS.truthyString (ticketNumber t)) eqn:Hnum; [|done].
  cbn [mbind Outcome_bind] in H.
  rewrite preSaveTicketNumber_assigned in H by done.
  destruct loaded as [o|]; case_match; simplify_eq; cbn;
    rewrite ?preSaveTimestamps_id, ?preSaveTimestamps_ticketNumber;
    by repeat split.
Qed.

End Frames.

(** ** Lifecycle timestamps *)

(** What the timestamp hook does when it runs: the first save that enters
    Resolved stamps [resolvedAt], and a stamp that is there is neither moved
    nor cleared; likewise for Closed and [closedAt]. *)
Lemma preSaveTimestamps_first_resolved now t :
  status t = Resolved → resolvedAt t = None →
  resolvedAt (preSaveTimestamps true now t) = Some now.
Proof.
  intros Hs Hr. unfold preSaveTimestamps.
  by rewrite (bool_decide_true (status t = Resolved)),
    (bool_decide_true (resolvedAt t = None)).
Qed.

Lemma preSaveTimestamps_first_closed now t :
  status t = Closed → closedAt t = None →
  closedAt (preSaveTimestamps true now t) = Some now.
Proof.
  intros Hs Hc. unfold preSaveTimestamps.
  rewrite (bool_decide_false (status t = Resolved)) by congruence.
  by rewrite (bool_decide_true (status t = Closed)),
    (bool_decide_true (closedAt t = None)).
Qed.

Lemma preSaveTimestamps_keeps_stamps statusModified now t d :
  (resolvedAt t = Some d → resolvedAt (preSaveTimestamps statusModified now t) = Some d) ∧
  (closedAt t = Some d → closedAt (preSaveTimestamps statusModified now t) = Some d).
Proof.
  unfold preSaveTimestamps. split; intros H; destruct statusModified; try done.
  - rewrite (bool_decide_false (resolvedAt t = None)) by congruence.
    rewrite andb_false_r. by case_match.
  - case_match; [done|].
    rewrite (bool_decide_false (closedAt t = None)) by congruence.
    by rewrite andb_false_r.
Qed.

(** An update runs no hook: when its patch stays within the scalar paths,
    as every patch of a non-admin does after the narrowing, it leaves both
    stamps as they are stored, whatever it does to the status. *)
Lemma updateTicket_keeps_stamps env db req ticket coll answer ticket' :
  User.role (Req.user req) ≠ admin ∨ scalarPatch (Req.body req) →
  findById (Tickets db) (Req.params_id req) = Some ticket →
  updateTicket env db req = (withTickets coll db, mkResponse 200 answer) →
  findById coll (Req.params_id req) = Some ticket' →
  resolvedAt ticket' = resolvedAt ticket ∧ closedAt ticket' = closedAt ticket.
Proof.
  intros _ Hfind. unfold updateTicket. case_bool_decide; [done|]. rewrite Hfind.
  case_match; [done|].
  destruct (findByIdAndUpdate _ _ _ _) as [[coll' r]|e] eqn:Hupd; [|by destruct (development env)].
  apply findByIdAndUpdate_result in Hupd. rewrite Hfind in Hupd.
  destruct r as [t'|]; [|done]. destruct Hupd as (-> & Hid & Hr & Hc & _).
  intros [= <- _] Hfind'.
  rewrite <- Hid in Hfind', Hfind.
  rewrite (findById_replaceById_eq _ _ _ Hfind) in Hfind'. by simplify_eq.
Qed.

(** C6, on the code: an admin sets the status of an Open ticket to Resolved
    through [updateTicket]; the request is answered 200 and the stored ticket
    is Resolved with no [resolvedAt].  Closing it afterwards the same way
    leaves [closedAt] unset as well.  [updateTicket] writes with
    [findByIdAndUpdate], which runs none of the [pre('save')] hooks. *)
Theorem updateTicket_resolves_without_resolvedAt :
  let resolved := serve Sample.db Sample.carolResolves in
  let closed := serve resolved.1 Sample.carolCloses in
  status Sample.ticket = Open ∧
  statusCode resolved.2 = 200 ∧
  (∃ t, findById (Tickets resolved.1) Sample.t1 = Some t ∧
        status t = Resolved ∧ resolvedAt t = None) ∧
  statusCode closed.2 = 200 ∧
  (∃ t, findById (Tickets closed.1) Sample.t1 = Some t ∧
        status t = Closed ∧ resolvedAt t = None ∧ closedAt t = None).
Proof.
  cbn zeta. split; [done|]. split; [by vm_compute|]. split; [|split; [by vm_compute|]].
  - eexists. split; [vm_compute; reflexivity|]. by split.
  - eexists. split; [vm_compute; reflexivity|]. by repeat split.
Qed.

(** ** The ticket number of a stored ticket *)

Section TicketNumber.

Implicit Types (env : Env) (db : DB) (req : Req.t) (coll : list Ticket)
  (t ticket : Ticket) (i : oid) (n : string).

Lemma truthyString_Some n : n ≠ "" → JS.truthyString (Some n) = true.
Proof. intros Hn. cbn. by apply negb_true_iff, String.eqb_neq. Qed.

Lemma save_loaded_keeps_number now coll o t2 coll' t' i n :
  save now coll (Some o) t2 = Returned (coll', t') →
  findById coll (_id o) = Some o →
  _id t2 = _id o → ticketNumber t2 = ticketNumber o →
  n ≠ "" → numbered coll i n → numbered coll' i n.
Proof.
  intros Hsave Ho Hid Hnum Hn (t & Ht & Htn).
  apply save_result in Hsave as (Hid' & Hkeep & ->).
  destruct (decide (i = _id t')) as [->|Hne].
  - exists t'. split.
    + apply findById_replaceById_eq with o. by rewrite Hid', Hid.
    + rewrite Hid', Hid, Ho in Ht. simplify_eq.
      rewrite Hkeep; rewrite Hnum, Htn; [done|]. by apply truthyString_Some.
  - exists t. by rewrite findById_replaceById_ne.
Qed.

Lemma createTicket_keeps_number env db req i n :
  numbered (Tickets db) i n → numbered (Tickets (createTicket env db req).1) i n.
Proof.
  intros (t & Ht & Htn). unfold createTicket. case_bool_decide; [by exists t|].
  destruct (newTicket env req) as [ticket|e]; [|by exists t].
  cbn [mbind Outcome_bind].
  destruct (save _ _ _ _) as [[coll t']|e] eqn:Hsave; [|by exists t].
  apply save_result in Hsave as (_ & _ & ->).
  exists t. split; [|done]. by apply findById_app.
Qed.

Lemma updateTicket_keeps_number env db req i n :
  ¬ (User.role (Req.user req) = admin ∧ is_Some (Req.body req !! "ticketNumber")) →
  numbered (Tickets db) i n → numbered (Tickets (updateTicket env db req).1) i n.
Proof.
  intros Hpatch (t & Ht & Htn). unfold updateTicket.
  case_bool_decide; [by exists t|].
  destruct (findById (Tickets db) (Req.params_id req)) as [ticket|] eqn:Hfind;
    [|by exists t].
  case_match; [by exists t|].
  set (updates := if negb (isAdmin req) then restrictUpdates (Req.body req)
                  else Req.body req).
  assert (updates !! "ticketNumber" = None) as Hnone.
  { unfold updates, isAdmin. case_bool_decide as Hrole; cbn [negb].
    - destruct (Req.body req !! "ticketNumber") eqn:Hb; [|done].
      exfalso. apply Hpatch. split; [done|]. rewrite ?Hb. done.
    - by rewrite restrictUpdates_lookup, allowedFields_test. }
  destruct (findByIdAndUpdate _ _ _ _) as [[coll r]|e] eqn:Hupd; [|by exists t].
  apply findByIdAndUpdate_result in Hupd. rewrite Hfind in Hupd.
  destruct r as [t'|]; [|done]. destruct Hupd as (-> & Hid & _ & _ & Hnum & _).
  cbn [fst withTickets Tickets].
  destruct (decide (i = _id t')) as [->|Hne].
  - exists t'. rewrite <- Hid in Hfind. split.
    + by apply findById_replaceById_eq with ticket.
    + rewrite Hnum by done. rewrite Hfind in Ht. by simplify_eq.
  - exists t. by rewrite findById_replaceById_ne.
Qed.

Lemma addComment_keeps_number env db req i n :
  n ≠ "" →
  numbered (Tickets db) i n → numbered (Tickets (addComment env db req).1) i n.
Proof.
  intros Hn Hnumbered. unfold addComment. case_bool_decide; [done|].
  destruct (findById (Tickets db) (Req.params_id req)) as [ticket|] eqn:Hfind; [|done].
  case_match; [done|].
  destruct (newComment _ _ _) as [comment|e]; [|done].
  cbn [mbind Outcome_bind].
  destruct (save _ _ _ _) as [[coll t']|e] eqn:Hsave; [|done].
  destruct (findById_Some _ _ _ Hfind) as [Hid _]. rewrite <- Hid in Hfind.
  by eapply save_loaded_keeps_number.
Qed.

Lemma assignTicket_keeps_number env db req i n :
  n ≠ "" →
  numbered (Tickets db) i n → numbered (Tickets (assignTicket env db req).1) i n.
Proof.
  intros Hn Hnumbered. unfold assignTicket.
  destruct (findById (Tickets db) (Req.params_id req)) as [ticket|] eqn:Hfind; [|done].
  destruct (match Req.body req !! "assignedTo" with
            | Some v => _
            | None => _
            end) as [target|e]; [|done].
  case_match; [done|].
  destruct (save _ _ _ _) as [[coll t']|e] eqn:Hsave; [|done].
  destruct (findById_Some _ _ _ Hfind) as [Hid _]. rewrite <- Hid in Hfind.
  eapply save_loaded_keeps_number; [exact Hsave|exact Hfind| | |done|done];
    by case_match.
Qed.

Lemma serve_keeps_number db c i n :
  ¬ renumbers c → n ≠ "" →
  numbered (Tickets db) i n → numbered (Tickets (serve db c).1) i n.
Proof.
  intros Hc Hn Hnumbered. unfold serve, renumbers in *.
  destruct (callRoute c); cbn [router]; unfold requireAdmin;
    rewrite ?checkTicketAccess_next.
  - by apply createTicket_keeps_number.
  - by case_bool_decide.
  - unfold getTicketById. by repeat case_match.
  - apply updateTicket_keeps_number; [tauto|done].
  - by apply addComment_keeps_number.
  - case_bool_decide; [done|]. by apply assignTicket_keeps_number.
Qed.

End TicketNumber.

(** C7, as stated, fails: carol, an admin, names [ticketNumber] in the patch
    of an update and the stored ticket ends up with the new number. *)
Lemma admin_update_renumbers :
  User.role Sample.carol = admin ∧
  numbered (Tickets Sample.db) Sample.t1 "TKT-20240101-0001" ∧
  statusCode (serve Sample.db Sample.carolRenumbers).2 = 200 ∧
  numbered (Tickets (serve Sample.db Sample.carolRenumbers).1) Sample.t1
    "TKT-20240101-9999" ∧
  ¬ numbered (Tickets (serve Sample.db Sample.carolRenumbers).1) Sample.t1
      "TKT-20240101-0001".
Proof.
  split; [done|]. split; [by eexists|]. split; [by vm_compute|]. split.
  - eexists. split; [vm_compute; reflexivity|done].
  - intros (t & Ht & Hn). vm_compute in Ht. by simplify_eq.
Qed.

(** C7, amended.  Through any sequence of requests served one after the
    other, none of which is an update by an admin whose patch names
    [ticketNumber], a stored ticket keeps the number it has: creation, reads,
    comments, assignments and statistics never write the number of a stored
    ticket, nor does an update by a non-admin or an update whose patch does
    not name it. *)
Theorem ticketNumber_stable db calls i n :
  Forall (λ c, ¬ renumbers c) calls →
  n ≠ "" →
  numbered (Tickets db) i n → numbered (Tickets (run db calls)) i n.
Proof.
  intros Hcalls Hn. revert db.
  induction Hcalls as [|c calls Hc _ IH]; intros db Hnumbered; [done|].
  unfold run. cbn [foldl]. apply IH. by apply serve_keeps_number.
Qed.

Lemma ticketNumber_stable_witness :
  numbered (Tickets (run Sample.db Sample.day)) Sample.t1 "TKT-20240101-0001".
Proof.
  apply (ticketNumber_stable Sample.db Sample.day Sample.t1 "TKT-20240101-0001").
  - repeat constructor; intros (Hroute & Hrole & Hkey);
      first [discriminate Hroute | discriminate Hrole
            | vm_compute in Hkey; by destruct Hkey].
  - discriminate.
  - by eexists.
Defined.

(** ** Numbering *)

Section Numbering.

Implicit Types (now : Date) (coll : list Ticket) (this last : Ticket).

(** The first ticket of a day is numbered 0001. *)
Lemma preSaveTicketNumber_first now coll this :
  JS.truthyString (ticketNumber this) = false →
  lastOfDay now coll = None →
  ticketNumber (preSaveTicketNumber now coll this) = Some (numberOfDay now "0001").
Proof.
  intros Hnone Hlast. unfold preSaveTicketNumber, lastOfDay in *.
  by rewrite Hnone, Hlast.
Qed.

(** The hook reads the sequence of the last ticket at index 3 of the
    pieces of its number.  A number of the form that the hook itself
    writes, [TKT-YYYYMMDD-NNNN], has the pieces 0, 1 and 2 only, so the
    next number ends in 0NaN whatever the last sequence was. *)
Lemma preSaveTicketNumber_next now coll this last number :
  JS.truthyString (ticketNumber this) = false →
  lastOfDay now coll = Some last →
  ticketNumber last = Some number → number ≠ "" →
  JS.split "-" number !! 3%nat = None →
  ticketNumber (preSaveTicketNumber now coll this) = Some (numberOfDay now "0NaN").
Proof.
  intros Hnone Hlast Hnumber Hne Hsplit. unfold preSaveTicketNumber, lastOfDay in *.
  rewrite Hnone, Hlast, Hnumber, Hsplit.
  replace (JS.truthyString (Some number)) with true
    by (symmetry; by apply negb_true_iff, String.eqb_neq).
  done.
Qed.

Example standard_numbers_have_three_pieces :
  JS.split "-" "TKT-20240101-0001" !! 3%nat = None ∧
  JS.split "-" "TKT-20240101-0NaN" !! 3%nat = None ∧
  JS.split "-" "TKT-20240101-0041" !! 2%nat = Some "0041".
Proof. done. Qed.

End Numbering.

(** ** Creating a ticket *)

Section Creation.

Implicit Types (env : Env) (db : DB) (req : Req.t) (coll : list Ticket) (t : Ticket).

Ltac bind_cases H :=
  repeat match type of H with
  | context [mbind _ ?m] => destruct m eqn:?; cbn [mbind Outcome_bind] in H
  end; unfold mret, Outcome_ret in H; simplify_eq.

(** The document that [createTicket] builds: new, without a number, Open,
    unassigned, without comments, created by the actor, of priority Medium
    unless the draft gives one. *)
Lemma newTicket_fields env req t :
  newTicket env req = Returned t →
  _id t = freshId env ∧ ticketNumber t = None ∧ status t = Open ∧
  createdBy t = User.id (Req.user req) ∧ assignedTo t = None ∧ comments t = [] ∧
  resolvedAt t = None ∧ closedAt t = None ∧ createdAt t = now env ∧
  (JS.truthy (Req.body req !! "priority") = false → priority t = Medium).
Proof.
  unfold newTicket. intros H.
  destruct (JS.truthy (Req.body req !! "priority")) eqn:Hpriority;
    bind_cases H; split_and!; try done.
  intros _. cbn [priority].
  match goal with
  | Hp : castPriority (Some (JS.Str "Medium")) = Returned ?a |- _ =>
      vm_compute in Hp; by injection Hp as <-
  end.
Qed.







(** What [createTicket] answers: the save of the document that it builds is
    refused by the validation, the document having no number, so the request
    is answered by the [catch] block whenever it passed the validation of
    the route. *)
Lemma createTicket_answer env db req :
  createTicket env db req
  = if bool_decide (Req.validationErrors req ≠ [])
    then (db, mkResponse 400 (ValidationFailed (Req.validationErrors req)))
    else (db, failed env "Failed to create ticket"
                (match newTicket env req with
                 | Returned _ => ValidationError
                 | Thrown e => e
                 end)).
Proof.
  unfold createTicket. case_bool_decide; [done|].
  destruct (newTicket env req) as [t|e] eqn:Hnew; [|done].
  cbn [mbind Outcome_bind].
  destruct (newTicket_fields _ _ _ Hnew) as (_ & Hnum & _).
  rewrite save_unnumbered; [done|]. by rewrite Hnum.
Qed.

Lemma createTicket_stores_nothing env db req : (createTicket env db req).1 = db.
Proof. rewrite createTicket_answer. by case_bool_decide. Qed.

End Creation.

(** C2, on the code.  No creation is ever numbered.  Mongoose validates a
    new document before the numbering hook runs; the document that
    [createTicket] builds has no [ticketNumber], which the schema requires,
    so its save is refused.  Three creation requests on 1 January 2024
    against an empty store are answered 500 each and store nothing, and
    whatever the request and the store, [createTicket] leaves the store as
    it was.  The hook, taken by itself, numbers the first document of the
    day TKT-20240101-0001 and, with that one stored, the second
    TKT-20240101-0NaN, not 0002: it reads the last sequence at index 3 of
    the pieces of the last number, which has the pieces 0 to 2 only. *)
Theorem creations_are_never_numbered :
  let refused := mkResponse 500 (Failure "Failed to create ticket" InternalServerError) in
  serve Sample.empty Sample.create1 = (Sample.empty, refused) ∧
  serve Sample.empty Sample.create2 = (Sample.empty, refused) ∧
  serve Sample.empty Sample.create3 = (Sample.empty, refused) ∧
  (∀ env db req, (createTicket env db req).1 = db) ∧
  ∃ doc1 doc2,
    newTicket (callEnv Sample.create1) (callReq Sample.create1) = Returned doc1 ∧
    newTicket (callEnv Sample.create2) (callReq Sample.create2) = Returned doc2 ∧
    let first := preSaveTicketNumber (now (callEnv Sample.create1)) [] doc1 in
    let second := preSaveTicketNumber (now (callEnv Sample.create2)) [first] doc2 in
    ticketNumber first = Some "TKT-20240101-0001" ∧
    ticketNumber second = Some "TKT-20240101-0NaN".
Proof.
  cbn zeta. split; [by vm_compute|]. split; [by vm_compute|]. split; [by vm_compute|].
  split; [apply createTicket_stores_nothing|].
  do 2 eexists. split; [vm_compute; reflexivity|].
  split; [vm_compute; reflexivity|]. split; by vm_compute.
Qed.

(** ** Failures of a creation *)





(** * Properties of the rest of the server *)

(** ** Requests that fail, and requests that read *)

Section NoEffect.

Implicit Types (env : Env) (db : DB) (req : Req.t).

Lemma failed_statusCode env message e : statusCode (failed env message e) = 500.
Proof. reflexivity. Qed.

Lemma createTicket_effect env db req :
  (createTicket env db req).1 = db ∨ statusCode (createTicket env db req).2 = 201.
Proof.
  unfold createTicket. case_bool_decide; [by left|].
  destruct (newTicket env req) as [t|e]; [|by left]. cbn [mbind Outcome_bind].
  destruct (save _ _ _ _) as [[coll t']|e]; [by right|by left].
Qed.

Lemma updateTicket_effect env db req :
  (updateTicket env db req).1 = db ∨ statusCode (updateTicket env db req).2 = 200.
Proof.
  unfold updateTicket. case_bool_decide; [by left|].
  destruct (findById _ _); [|by left]. case_match; [by left|].
  destruct (findByIdAndUpdate _ _ _ _) as [[coll r]|e]; [by right|by left].
Qed.

Lemma addComment_effect env db req :
  (addComment env db req).1 = db ∨ statusCode (addComment env db req).2 = 200.
Proof.
  unfold addComment. case_bool_decide; [by left|].
  destruct (findById _ _); [|by left]. case_match; [by left|].
  destruct (newComment _ _ _); [|by left]. cbn [mbind Outcome_bind].
  destruct (save _ _ _ _) as [[coll r]|e]; [by right|by left].
Qed.

Lemma assignTicket_effect env db req :
  (assignTicket env db req).1 = db ∨ statusCode (assignTicket env db req).2 = 200.
Proof.
  unfold assignTicket. destruct (findById _ _); [|by left].
  destruct (match Req.body req !! "assignedTo" with
            | Some v => _
            | None => _
            end) as [target|e]; [|by left].
  case_match; [by left|].
  destruct (save _ _ _ _) as [[coll r]|e]; [by right|by left].
Qed.

Lemma getTicketById_reads env db req : (getTicketById env db req).1 = db.
Proof. unfold getTicketById. by repeat case_match. Qed.

End NoEffect.

(** X1.  On every ticket route, a request that is not answered 200 or 201
    leaves the store exactly as it was: validation failures, unknown ids,
    denials, refused assignees and the 500 of a failed write have no effect.
    The two reading routes leave the store as it was whatever they answer. *)
Theorem requests_without_effect r env db req :
  (statusCode (router r env db req).2 ≠ 200 ∧ statusCode (router r env db req).2 ≠ 201) ∨
  r = GET_tickets_id ∨ r = GET_tickets_stats →
  (router r env db req).1 = db.
Proof.
  intros Hcase. destruct r; cbn [router] in *; unfold requireAdmin in *;
    rewrite ?checkTicketAccess_next in *.
  - destruct (createTicket_effect env db req) as [Heff|Heff]; [done|].
    destruct Hcase as [[_ Hne]|[?|?]]; done.
  - by case_bool_decide as Hrole.
  - apply getTicketById_reads.
  - destruct (updateTicket_effect env db req) as [Heff|Heff]; [done|].
    destruct Hcase as [[Hne _]|[?|?]]; done.
  - destruct (addComment_effect env db req) as [Heff|Heff]; [done|].
    destruct Hcase as [[Hne _]|[?|?]]; done.
  - case_bool_decide as Hrole; [done|].
    destruct (assignTicket_effect env db req) as [Heff|Heff]; [done|].
    destruct Hcase as [[Hne _]|[?|?]]; done.
Qed.

Lemma requests_without_effect_witness :
  (router PUT_tickets_id (Sample.env 7000 "") Sample.db
     (Sample.request Sample.bob Sample.t1 [("title", JS.Str "Mine now")])).1
  = Sample.db.
Proof.
  apply (requests_without_effect PUT_tickets_id (Sample.env 7000 "") Sample.db
           (Sample.request Sample.bob Sample.t1 [("title", JS.Str "Mine now")])).
  left. split; vm_compute; discriminate.
Defined.

(** ** Authentication *)

Section Authentication.

Variable jwtVerify : string → JwtResult.

Implicit Types (env : Env) (db : DB) (raw : Raw.t) (next : Handler) (w rest h : string).

Lemma split_spaceless w : spaceless w → JS.split " " w = [w].
Proof.
  unfold spaceless.
  induction w as [|a w IH]; cbn [JS.split String.list_ascii_of_string]; [done|].
  intros [Ha Hw]%Forall_cons.
  destruct (Ascii.eqb_spec a " ") as [?|_]; [done|]. by rewrite IH.
Qed.

Lemma split_word w rest :
  spaceless w → JS.split " " (w +:+ " " +:+ rest) = w :: JS.split " " rest.
Proof.
  unfold spaceless.
  induction w as [|a w IH]; simpl; [done|].
  intros [Ha Hw]%Forall_cons.
  destruct (Ascii.eqb_spec a " ") as [?|_]; [done|].
  simpl in IH. by rewrite IH.
Qed.

Lemma split_head (sep : ascii) (s : string) : ∃ piece pieces, JS.split sep s = piece :: pieces.
Proof.
  induction s as [|a s (piece & pieces & IH)]; cbn [JS.split]; [by eexists _, _|].
  destruct (Ascii.eqb a sep); [by eexists _, _|]. rewrite IH. by eexists _, _.
Qed.

(** The token is the second word of the header; the first word is not looked
    at. *)
Lemma bearerToken_second_word w rest i b f v :
  spaceless w →
  bearerToken (Raw.mk (Some (w +:+ " " +:+ rest)) i b f v) = head (JS.split " " rest).
Proof.
  intros Hw. unfold bearerToken. cbn [Raw.authorization].
  rewrite split_word by done.
  assert (JS.truthyString (Some (w +:+ " " +:+ rest)) = true) as ->; [by destruct w|].
  by destruct (split_head " " rest) as (piece & pieces & ->).
Qed.

End Authentication.

(** X2.  A request with no Authorization header, with a header of a single
    word (a bare token, or the scheme alone), or with a scheme followed by a
    space and nothing, is answered 401 'Access token required': the token is
    not verified, the handler behind does not run and the store is as it
    was. *)
Theorem authenticateToken_requires_token jwtVerify next env db raw :
  Raw.authorization raw = None ∨
  (∃ w, spaceless w ∧
        (Raw.authorization raw = Some w ∨ Raw.authorization raw = Some (w +:+ " "))) →
  authenticateToken jwtVerify next env db raw
  = (db, mkResponse 401 (Message "Access token required")).
Proof.
  intros Hheader. unfold authenticateToken.
  assert (JS.truthyString (bearerToken raw) = false) as ->; [|done].
  unfold bearerToken. destruct Hheader as [->|(w & Hw & [-> | ->])]; [done| |].
  - destruct (JS.truthyString (Some w)) eqn:Hnonempty; [|done].
    by rewrite split_spaceless.
  - destruct (JS.truthyString (Some (w +:+ " "))) eqn:Hnonempty; [|done].
    change (w +:+ " ") with (w +:+ " " +:+ ""). by rewrite split_word.
Qed.

Lemma authenticateToken_requires_token_witness :
  authenticateToken Scenario.verify (router GET_tickets_id) (Sample.env 7000 "")
    Scenario.db (Scenario.raw (Some "64b7f0c2a1d3e4f5a6b7c801") Sample.t1 [])
  = (Scenario.db, mkResponse 401 (Message "Access token required")).
Proof.
  apply (authenticateToken_requires_token Scenario.verify (router GET_tickets_id)
           (Sample.env 7000 "") Scenario.db
           (Scenario.raw (Some "64b7f0c2a1d3e4f5a6b7c801") Sample.t1 [])).
  right. exists "64b7f0c2a1d3e4f5a6b7c801". split; [|by left].
  unfold spaceless. cbn. repeat constructor; discriminate.
Defined.

(** X3.  The scheme of the Authorization header is not looked at: two
    requests that differ only in the first word of the header are served
    alike, so 'Bearer', 'Basic' or any other word before the token is
    accepted. *)
Theorem authenticateToken_ignores_scheme jwtVerify next env db w1 w2 rest i b f v :
  spaceless w1 → spaceless w2 →
  authenticateToken jwtVerify next env db (Raw.mk (Some (w1 +:+ " " +:+ rest)) i b f v)
  = authenticateToken jwtVerify next env db (Raw.mk (Some (w2 +:+ " " +:+ rest)) i b f v).
Proof.
  intros H1 H2. unfold authenticateToken.
  by rewrite !bearerToken_second_word.
Qed.

Lemma authenticateToken_ignores_scheme_witness :
  authenticateToken Scenario.verify (router GET_tickets_id) (Sample.env 7000 "")
    Scenario.db (Raw.mk (Some ("Bearer" +:+ " " +:+ User.id Sample.alice)) Sample.t1 ∅ None [])
  = authenticateToken Scenario.verify (router GET_tickets_id) (Sample.env 7000 "")
      Scenario.db (Raw.mk (Some ("Basic" +:+ " " +:+ User.id Sample.alice)) Sample.t1 ∅ None []).
Proof.
  apply (authenticateToken_ignores_scheme Scenario.verify (router GET_tickets_id)
           (Sample.env 7000 "") Scenario.db "Bearer" "Basic" (User.id Sample.alice)).
  - unfold spaceless. cbn. repeat constructor; discriminate.
  - unfold spaceless. cbn. repeat constructor; discriminate.
Defined.

(** What [authenticateToken] does with a token that verifies: the user is
    looked up in the store, and it is the stored document that the handler
    sees as [req.user]. *)
Lemma authenticateToken_verified jwtVerify next env db raw token i :
  bearerToken raw = Some token → token ≠ "" →
  jwtVerify token = Decoded i →
  authenticateToken jwtVerify next env db raw
  = match findUserById (Users db) i with
    | None => (db, mkResponse 401 (Message "Invalid token - user not found"))
    | Some account =>
        if User.isActive account
        then next env db
               (Req.mk account (Raw.params_id raw) (Raw.body raw) (Raw.files raw)
                  (Raw.validationErrors raw))
        else (db, mkResponse 401 (Message "Account is deactivated"))
    end.
Proof.
  intros Htoken Hne Hverify. unfold authenticateToken.
  rewrite Htoken, truthyString_Some by done. cbn [negb from_option id]. rewrite Hverify.
  destruct (findUserById (Users db) i) as [account|]; [|done].
  by destruct (User.isActive account).
Qed.

(** X4.  The role that decides is the stored one: a request whose token
    verifies to an active stored user who is no admin is answered 403 'Admin
    access required' on the statistics route, on the assignment route and on
    the route that deletes a user, and the store is as it was. *)
Theorem authenticated_non_admin_is_refused jwtVerify env db raw token i account :
  bearerToken raw = Some token → token ≠ "" →
  jwtVerify token = Decoded i →
  findUserById (Users db) i = Some account →
  User.isActive account = true →
  User.role account ≠ admin →
  api jwtVerify GET_tickets_stats env db raw
  = (db, mkResponse 403 (Message "Admin access required")) ∧
  api jwtVerify PUT_tickets_id_assign env db raw
  = (db, mkResponse 403 (Message "Admin access required")) ∧
  apiDeleteUser jwtVerify env db raw
  = (db, mkResponse 403 (Message "Admin access required")).
Proof.
  intros Htoken Hne Hverify Hfind Hactive Hrole.
  unfold api, apiDeleteUser.
  rewrite !(authenticateToken_verified _ _ _ _ _ _ _ Htoken Hne Hverify), Hfind, Hactive.
  cbn [router]. unfold requireAdmin. cbn [Req.user].
  by rewrite bool_decide_true.
Qed.

Lemma authenticated_non_admin_is_refused_witness :
  let raw :=
    Scenario.raw (Scenario.bearer Sample.alice) Sample.t1
      [("assignedTo", JS.Str (User.id Sample.alice))] in
  api Scenario.verify GET_tickets_stats (Sample.env 7000 "") Scenario.db raw
  = (Scenario.db, mkResponse 403 (Message "Admin access required")) ∧
  api Scenario.verify PUT_tickets_id_assign (Sample.env 7000 "") Scenario.db raw
  = (Scenario.db, mkResponse 403 (Message "Admin access required")) ∧
  apiDeleteUser Scenario.verify (Sample.env 7000 "") Scenario.db raw
  = (Scenario.db, mkResponse 403 (Message "Admin access required")).
Proof.
  apply (authenticated_non_admin_is_refused Scenario.verify (Sample.env 7000 "")
           Scenario.db _ (User.id Sample.alice) (User.id Sample.alice) Sample.alice).
  - reflexivity.
  - discriminate.
  - reflexivity.
  - reflexivity.
  - reflexivity.
  - discriminate.
Defined.

(** ** Deactivating a user *)

Section DeleteUser.

Implicit Types (env : Env) (db : DB) (req : Req.t) (users : list User.t) (i j : oid)
  (coll : list Ticket).

Lemma findUserById_deactivate_eq users i account :
  findUserById users i = Some account →
  findUserById (deactivate i users) i
  = Some (User.mk (User.id account) (User.role account) false).
Proof.
  unfold findUserById, deactivate.
  induction users as [|u users IH]; [done|]. cbn [fmap list_fmap List.find].
  destruct (bool_decide (User.id u = i)) eqn:Hu.
  - intros [= ->]. cbn [User.id]. by rewrite Hu.
  - rewrite Hu. exact IH.
Qed.

Lemma findUserById_deactivate_ne users i j :
  j ≠ i → findUserById (deactivate i users) j = findUserById users j.
Proof.
  intros Hne. unfold findUserById, deactivate.
  induction users as [|u users IH]; [done|]. cbn [fmap list_fmap List.find].
  rewrite IH. destruct (bool_decide (User.id u = i)) eqn:Hu; [|done].
  apply bool_decide_eq_true in Hu. cbn [User.id].
  by rewrite !bool_decide_false by congruence.
Qed.

Lemma deactivate_keeps users i :
  User.id <$> deactivate i users = User.id <$> users ∧
  User.role <$> deactivate i users = User.role <$> users ∧
  ∀ u, u ∈ deactivate i users → User.isActive u = true → u ∈ users.
Proof.
  unfold deactivate. induction users as [|u users (IHid & IHrole & IHactive)];
    [by repeat split; intros u Hu; inversion Hu|].
  rewrite !fmap_cons, IHid, IHrole. repeat split; try by case_bool_decide.
  intros u' [->|Hin]%elem_of_cons Hactive.
  - case_bool_decide; [done|]. by left.
  - right. by apply IHactive.
Qed.

Lemma activeStatuses_spec (s : Status) :
  Status_string s ∈ activeStatuses ↔ s ≠ Resolved ∧ s ≠ Closed.
Proof.
  unfold activeStatuses. rewrite !elem_of_cons, elem_of_nil.
  destruct s; cbn; split; intros H; try (by repeat split); try (by destruct H);
    try tauto; by (destruct H as [H|[H|[H|[]]]]; discriminate H).
Qed.

Lemma countActiveTickets_positive i coll :
  (0 < countActiveTickets i coll)%nat ↔
  ∃ t, t ∈ coll ∧ (createdBy t = i ∨ assignedTo t = Some i) ∧
       status t ≠ Resolved ∧ status t ≠ Closed.
Proof.
  unfold countActiveTickets. split.
  - intros Hpos.
    destruct (filter _ coll) as [|t rest] eqn:Hfilter; [cbn in Hpos; lia|].
    assert (t ∈ t :: rest) as Hin by apply list_elem_of_here.
    rewrite <- Hfilter in Hin. apply list_elem_of_filter in Hin as [Hactive Hin].
    exists t. rewrite <- activeStatuses_spec. tauto.
  - intros (t & Hin & Hwho & Hstatus). apply activeStatuses_spec in Hstatus.
    assert (t ∈ filter
              (λ t, (createdBy t = i ∧ Status_string (status t) ∈ activeStatuses) ∨
                    (assignedTo t = Some i ∧ Status_string (status t) ∈ activeStatuses))
              coll) as Hfound.
    { apply list_elem_of_filter. tauto. }
    destruct (filter _ coll); [by inversion Hfound|cbn; lia].
Qed.

End DeleteUser.

(** X5.  [deleteUser] is a soft delete whatever it answers: it leaves the
    ticket collection as it is, removes no user document, changes no id and
    no role, activates nobody, and does not touch any user other than the
    one named. *)
Theorem deleteUser_is_soft env db req :
  let db' := (deleteUser env db req).1 in
  Tickets db' = Tickets db ∧
  User.id <$> Users db' = User.id <$> Users db ∧
  User.role <$> Users db' = User.role <$> Users db ∧
  (∀ u, u ∈ Users db' → User.isActive u = true → u ∈ Users db) ∧
  (∀ j, j ≠ Req.params_id req →
        findUserById (Users db') j = findUserById (Users db) j).
Proof.
  cbn zeta. unfold deleteUser.
  destruct (findUserById (Users db) (Req.params_id req)) as [account|]; [|done].
  case_bool_decide; [done|]. cbn [fst Tickets Users].
  destruct (deactivate_keeps (Users db) (Req.params_id req)) as (Hid & Hrole & Hactive).
  repeat split; try done. intros j Hj. by apply findUserById_deactivate_ne.
Qed.

(** X6.  For a user that exists, [deleteUser] refuses with 400 exactly when
    some ticket that the user created or is assigned is neither Resolved nor
    Closed, and the store is then as it was; otherwise it answers 200 and
    the stored user is the same with [isActive] false. *)
Theorem deleteUser_blocked_by_active_tickets env db req account :
  findUserById (Users db) (Req.params_id req) = Some account →
  let i := Req.params_id req in
  let busy :=
    ∃ t, t ∈ Tickets db ∧ (createdBy t = i ∨ assignedTo t = Some i) ∧
         status t ≠ Resolved ∧ status t ≠ Closed in
  (busy →
   (deleteUser env db req).1 = db ∧ statusCode (deleteUser env db req).2 = 400) ∧
  (¬ busy →
   deleteUser env db req
   = (mkDB (Tickets db) (deactivate i (Users db)),
      mkResponse 200 (Message "User deactivated successfully")) ∧
   findUserById (Users (deleteUser env db req).1) i
   = Some (User.mk (User.id account) (User.role account) false)).
Proof.
  intros Hfind i busy. subst i busy. unfold deleteUser. rewrite Hfind.
  split; intros Hbusy.
  - rewrite bool_decide_true; [done|]. by apply countActiveTickets_positive.
  - rewrite bool_decide_false by (by rewrite countActiveTickets_positive).
    split; [done|]. cbn [fst Users]. by apply findUserById_deactivate_eq.
Qed.

Lemma deleteUser_blocked_by_active_tickets_witness :
  statusCode (deleteUser (Sample.env 7000 "") Scenario.db
                (Sample.request Sample.carol (User.id Sample.bob) [])).2 = 200 ∧
  statusCode (deleteUser (Sample.env 7000 "") Scenario.db
                (Sample.request Sample.carol (User.id Sample.alice) [])).2 = 400.
Proof.
  split.
  - destruct (deleteUser_blocked_by_active_tickets (Sample.env 7000 "") Scenario.db
                (Sample.request Sample.carol (User.id Sample.bob) []) Sample.bob)
      as [_ Hfree]; [reflexivity|].
    destruct Hfree as [-> _]; [|reflexivity].
    intros (t & Hin & Hwho & Hres & Hclosed).
    apply elem_of_cons in Hin as [->|Hin]; [by destruct Hwho|].
    apply elem_of_cons in Hin as [->|Hin]; [by apply Hres|by inversion Hin].
  - destruct (deleteUser_blocked_by_active_tickets (Sample.env 7000 "") Scenario.db
                (Sample.request Sample.carol (User.id Sample.alice) []) Sample.alice)
      as [Hbusy _]; [reflexivity|].
    apply Hbusy. exists Sample.ticket.
    split; [apply list_elem_of_here|]. split; [by left|by split].
Defined.

(** X7.  On the store that [deleteUser] leaves when it has answered 200 for
    a user, a request whose token verifies to that user is answered 401
    'Account is deactivated' before any handler runs, on whatever route, and
    changes nothing.  (This is the store right after the deactivation:
    [isActive] can be set again later, by [updateUser].) *)
Theorem deleteUser_locks_out jwtVerify next env db req env' raw token :
  statusCode (deleteUser env db req).2 = 200 →
  bearerToken raw = Some token → token ≠ "" →
  jwtVerify token = Decoded (Req.params_id req) →
  authenticateToken jwtVerify next env' (deleteUser env db req).1 raw
  = ((deleteUser env db req).1, mkResponse 401 (Message "Account is deactivated")).
Proof.
  intros Hok Htoken Hne Hverify.
  rewrite (authenticateToken_verified _ _ _ _ _ _ _ Htoken Hne Hverify).
  unfold deleteUser in *.
  destruct (findUserById (Users db) (Req.params_id req)) as [account|] eqn:Hfind;
    [|discriminate Hok].
  case_bool_decide; [discriminate Hok|]. cbn [fst Users].
  by rewrite (findUserById_deactivate_eq _ _ _ Hfind).
Qed.

Lemma deleteUser_locks_out_witness :
  let gone :=
    (deleteUser (Sample.env 7000 "") Scenario.db
       (Sample.request Sample.carol (User.id Sample.bob) [])).1 in
  authenticateToken Scenario.verify (router GET_tickets_id) (Sample.env 8000 "") gone
    (Scenario.raw (Scenario.bearer Sample.bob) Sample.t2 [])
  = (gone, mkResponse 401 (Message "Account is deactivated")).
Proof.
  apply (deleteUser_locks_out Scenario.verify (router GET_tickets_id)
           (Sample.env 7000 "") Scenario.db
           (Sample.request Sample.carol (User.id Sample.bob) []) (Sample.env 8000 "")
           (Scenario.raw (Scenario.bearer Sample.bob) Sample.t2 []) (User.id Sample.bob)).
  - reflexivity.
  - reflexivity.
  - discriminate.
  - reflexivity.
Defined.


(** ** Statistics and dashboards of the user controller *)

Section Dashboards.

Implicit Types (env : Env) (db : DB) (req : Req.t) (coll l : list Ticket) (t x : Ticket)
  (i : oid).

Lemma insertCreatedAtDesc_Permutation t l : insertCreatedAtDesc t l ≡ₚ t :: l.
Proof.
  induction l as [|x l IH]; cbn [insertCreatedAtDesc]; [done|].
  case_bool_decide; [done|]. rewrite IH. apply Permutation_swap.
Qed.

Lemma sortCreatedAtDesc_Permutation l : sortCreatedAtDesc l ≡ₚ l.
Proof.
  unfold sortCreatedAtDesc. induction l as [|x l IH]; cbn [foldr]; [done|].
  by rewrite insertCreatedAtDesc_Permutation, IH.
Qed.

Lemma insertCreatedAtDesc_sorted t l :
  StronglySorted newerOrEqual l → StronglySorted newerOrEqual (insertCreatedAtDesc t l).
Proof.
  induction 1 as [|x l Hsorted IH Hx]; cbn [insertCreatedAtDesc];
    [by repeat constructor|].
  case_bool_decide as Hle.
  - constructor; [by constructor|]. constructor; [done|].
    eapply Forall_impl; [exact Hx|]. unfold newerOrEqual. intros y Hy. lia.
  - constructor; [done|].
    rewrite insertCreatedAtDesc_Permutation. constructor; [|done].
    unfold newerOrEqual. lia.
Qed.

Lemma sortCreatedAtDesc_sorted l : StronglySorted newerOrEqual (sortCreatedAtDesc l).
Proof.
  unfold sortCreatedAtDesc. induction l as [|x l IH]; cbn [foldr]; [constructor|].
  by apply insertCreatedAtDesc_sorted.
Qed.

(** The ten most recent: the first ten of the sorted list are sorted, come
    from the list, and leave out only documents that are no newer than every
    one of them. *)
Lemma recent_spec l :
  let recent := take 10 (sortCreatedAtDesc l) in
  length recent = (10 `min` length l)%nat ∧
  StronglySorted newerOrEqual recent ∧
  (∀ t, t ∈ recent → t ∈ l) ∧
  (∀ t r, t ∈ l → t ∉ recent → r ∈ recent → newerOrEqual r t).
Proof.
  cbn zeta.
  pose proof (sortCreatedAtDesc_sorted l) as Hsorted.
  pose proof (sortCreatedAtDesc_Permutation l) as Hperm.
  rewrite <- (take_drop 10 (sortCreatedAtDesc l)) in Hsorted.
  apply StronglySorted_app in Hsorted as (Hacross & Htake & _).
  repeat split.
  - by rewrite length_take, (Permutation_length Hperm).
  - done.
  - intros t Ht. rewrite <- Hperm. by eapply subseteq_take.
  - intros t r Ht Hnot Hr. apply Hacross; [done|].
    rewrite <- Hperm, <- (take_drop 10 (sortCreatedAtDesc l)) in Ht.
    by apply elem_of_app in Ht as [Ht|Ht].
Qed.

Lemma countTickets_creator i coll :
  countTickets (Some i) None coll = length (filter (λ t, createdBy t = i) coll).
Proof.
  unfold countTickets. induction coll as [|t coll IH]; [done|].
  cbn [List.filter]. rewrite filter_cons, andb_true_r.
  case_bool_decide; case_decide; try done. cbn [length]. by rewrite IH.
Qed.

Lemma countTickets_all coll : countTickets None None coll = length coll.
Proof.
  unfold countTickets. induction coll as [|t coll IH]; [done|].
  cbn in *. by f_equal.
Qed.

Lemma countTickets_statuses creator coll :
  (countTickets creator (Some "Open") coll
   + countTickets creator (Some "In Progress") coll
   + countTickets creator (Some "Resolved") coll
   ≤ countTickets creator None coll)%nat.
Proof.
  unfold countTickets. induction coll as [|t coll IH]; [done|].
  cbn [List.filter].
  destruct (match creator with
            | Some i => bool_decide (createdBy t = i)
            | None => true
            end); cbn [andb]; [|exact IH].
  destruct (status t); cbn; lia.
Qed.

End Dashboards.

(** X8.  [getUserById] answers 404 for an id that resolves to no user.  For a
    user that exists it answers 200 with statistics over the tickets that the
    user created, and only those: the total is their number, and the four
    counters and the tickets waiting for a response add up to it. *)
Theorem getUserById_statistics env db req :
  match findUserById (Users db) (Req.params_id req) with
  | None =>
      getUserById env db req = (db, mkUserResponse 404 (UserMessage "User not found"))
  | Some account =>
      let own := filter (λ t, createdBy t = User.id account) (Tickets db) in
      ∃ ov,
        getUserById env db req = (db, mkUserResponse 200 (UserWithStats account ov)) ∧
        totalTickets ov = length own ∧
        (openTickets ov + inProgressTickets ov + resolvedTickets ov + closedTickets ov
         + waitingTickets own = totalTickets ov)%nat
  end.
Proof.
  unfold getUserById.
  destruct (findUserById (Users db) (Req.params_id req)) as [account|]; [|done].
  cbn zeta. eexists. split; [reflexivity|].
  pose proof (status_counters_partition
                (filter (λ t, createdBy t = User.id account) (Tickets db))) as Hpart.
  destruct (filter _ (Tickets db)) as [|t own]; [done|].
  cbn [aggregateOverview head default id totalTickets openTickets inProgressTickets
       resolvedTickets closedTickets].
  rewrite total_counts_all. by split.
Qed.

(** X9.  The dashboard of a user who is no admin counts the tickets that the
    user created: [myTickets] is their number, the counters for Open, In
    Progress and Resolved together do not exceed it, and [recentTickets]
    holds the ten most recently created of them (all of them when there are
    fewer), newest first. *)
Theorem getDashboardData_user env db req :
  User.role (Req.user req) ≠ admin →
  let own := filter (λ t, createdBy t = User.id (Req.user req)) (Tickets db) in
  ∃ my opened progressing resolved recent,
    getDashboardData env db req
    = (db, mkUserResponse 200
             (Dashboard (UserDashboard my opened progressing resolved recent))) ∧
    my = length own ∧
    (opened + progressing + resolved ≤ my)%nat ∧
    length recent = (10 `min` my)%nat ∧
    StronglySorted newerOrEqual recent ∧
    (∀ t, t ∈ recent → t ∈ Tickets db ∧ createdBy t = User.id (Req.user req)) ∧
    (∀ t r, t ∈ own → t ∉ recent → r ∈ recent → newerOrEqual r t).
Proof.
  intros Hrole own. unfold getDashboardData.
  rewrite bool_decide_false by done. fold own.
  destruct (recent_spec own) as (Hlen & Hsorted & Hfrom & Hnewest).
  do 5 eexists. split; [reflexivity|].
  pose proof (countTickets_statuses (Some (User.id (Req.user req))) (Tickets db)).
  rewrite countTickets_creator in *. fold own in H |- *.
  split_and!; try done.
  intros t Ht. apply Hfrom in Ht. unfold own in Ht.
  apply list_elem_of_filter in Ht. tauto.
Qed.

Lemma getDashboardData_user_witness :
  ∃ recent,
    getDashboardData (Sample.env 7000 "") Scenario.db
      (Sample.request Sample.alice "" [])
    = (Scenario.db,
       mkUserResponse 200 (Dashboard (UserDashboard 2 1 0 1 recent))) ∧
    length recent = 2%nat.
Proof.
  destruct (getDashboardData_user (Sample.env 7000 "") Scenario.db
              (Sample.request Sample.alice "" []))
    as (my & opened & progressing & resolved & recent & Hanswer & _ & _ & Hlen & _).
  - discriminate.
  - exists recent. vm_compute in Hanswer. injection Hanswer as <- <- <- <- <-.
    split; reflexivity.
Defined.

(** X10.  The dashboard of an admin counts every ticket and the users that
    are active, and its [recentTickets] are the ten most recently created
    tickets of the whole collection, newest first. *)
Theorem getDashboardData_admin env db req :
  User.role (Req.user req) = admin →
  ∃ users total opened progressing recent,
    getDashboardData env db req
    = (db, mkUserResponse 200
             (Dashboard (AdminDashboard users total opened progressing recent))) ∧
    users = length (filter (λ u, User.isActive u = true) (Users db)) ∧
    total = length (Tickets db) ∧
    (opened + progressing ≤ total)%nat ∧
    length recent = (10 `min` total)%nat ∧
    StronglySorted newerOrEqual recent ∧
    (∀ t, t ∈ recent → t ∈ Tickets db) ∧
    (∀ t r, t ∈ Tickets db → t ∉ recent → r ∈ recent → newerOrEqual r t).
Proof.
  intros Hrole. unfold getDashboardData. rewrite bool_decide_true by done.
  destruct (recent_spec (Tickets db)) as (Hlen & Hsorted & Hfrom & Hnewest).
  do 5 eexists. split; [reflexivity|].
  pose proof (countTickets_statuses None (Tickets db)) as Hcount.
  rewrite countTickets_all in *. split_and!; try done. lia.
Qed.

Lemma getDashboardData_admin_witness :
  ∃ recent,
    getDashboardData (Sample.env 7000 "") Scenario.db
      (Sample.request Sample.carol "" [])
    = (Scenario.db,
       mkUserResponse 200 (Dashboard (AdminDashboard 3 2 1 0 recent))) ∧
    recent = [Scenario.resolvedTicket; Sample.ticket].
Proof.
  destruct (getDashboardData_admin (Sample.env 7000 "") Scenario.db
              (Sample.request Sample.carol "" []))
    as (users & total & opened & progressing & recent & Hanswer & _).
  - reflexivity.
  - exists recent. vm_compute in Hanswer. injection Hanswer as <- <- <- <- <-.
    split; reflexivity.
Defined.

(** ** The listing filter *)

Section ListingProperties.

Variable regexTest : string → string → bool.

Implicit Types (actor : User.t) (query : gmap string string) (coll : list Ticket)
  (t : Ticket).

Lemma equalsParam_Some param value v :
  equalsParam param value = true → param = Some v → value = v.
Proof. intros H ->. by apply String.eqb_eq. Qed.

Lemma matchesFilter_spec actor query t :
  matchesFilter regexTest (buildFilter actor query) t = true →
  (User.role actor ≠ admin →
   createdBy t = User.id actor ∨ assignedTo t = Some (User.id actor)) ∧
  (∀ s, queryParam query "status" = Some s → Status_string (status t) = s) ∧
  (∀ p, queryParam query "priority" = Some p → Priority_string (priority t) = p) ∧
  (∀ c, queryParam query "category" = Some c → category t = c) ∧
  (∀ i, queryParam query "createdBy" = Some i → createdBy t = i) ∧
  (∀ i, queryParam query "assignedTo" = Some i → assignedTo t = Some i).
Proof.
  unfold matchesFilter, buildFilter.
  cbn [filter_or filter_status filter_priority filter_category filter_assignedTo
       filter_createdBy filter_and].
  rewrite !andb_true_iff. intros ((((((Hor & Hs) & Hp) & Hc) & Ha) & Hb) & _).
  split_and!; eauto using equalsParam_Some.
  - intros Hrole. rewrite bool_decide_true in Hor by done.
    apply orb_true_iff in Hor as [H|H]; apply bool_decide_eq_true in H; auto.
  - intros i Hi. rewrite Hi in Ha. by apply bool_decide_eq_true in Ha.
Qed.

End ListingProperties.

(** X11.  Whatever the query string, every ticket that the filter of
    [getTickets] finds for an actor who is no admin was created by the actor
    or is assigned to the actor; naming somebody else in [createdBy] or
    [assignedTo] narrows the list and never widens it.  For every actor, a
    ticket that is found is a stored one and agrees with each of the query
    parameters [status], [priority], [category], [createdBy] and
    [assignedTo] that is given and not empty. *)
Theorem findTickets_restricted regexTest actor query coll t :
  t ∈ findTickets regexTest (buildFilter actor query) coll →
  t ∈ coll ∧
  (User.role actor ≠ admin →
   createdBy t = User.id actor ∨ assignedTo t = Some (User.id actor)) ∧
  (∀ s, queryParam query "status" = Some s → Status_string (status t) = s) ∧
  (∀ p, queryParam query "priority" = Some p → Priority_string (priority t) = p) ∧
  (∀ c, queryParam query "category" = Some c → category t = c) ∧
  (∀ i, queryParam query "createdBy" = Some i → createdBy t = i) ∧
  (∀ i, queryParam query "assignedTo" = Some i → assignedTo t = Some i).
Proof.
  unfold findTickets. intros [Hin Hmatch]%list_elem_of_In%List.filter_In.
  split; [by apply list_elem_of_In|]. by eapply matchesFilter_spec.
Qed.

Lemma findTickets_restricted_witness :
  let query : gmap string string := {[ "createdBy" := User.id Sample.alice ]} in
  findTickets (λ _ _, true) (buildFilter Sample.bob query) (Tickets Scenario.db)
  = [Scenario.resolvedTicket] ∧
  assignedTo Scenario.resolvedTicket = Some (User.id Sample.bob).
Proof.
  cbn zeta. split; [by vm_compute|].
  destruct (findTickets_restricted (λ _ _, true) Sample.bob
              {[ "createdBy" := User.id Sample.alice ]} (Tickets Scenario.db)
              Scenario.resolvedTicket) as (_ & Hown & _).
  - apply list_elem_of_In. vm_compute. by left.
  - destruct Hown as [Hcreated|Hassigned]; [discriminate| |exact Hassigned].
    discriminate Hcreated.
Defined.

(** X12.  With no query parameter, the filter finds every stored ticket for
    an admin, and for anybody else exactly the stored tickets that the actor
    created or is assigned. *)
Theorem findTickets_without_query regexTest actor coll :
  (User.role actor = admin →
   findTickets regexTest (buildFilter actor ∅) coll = coll ∧
   countDocuments regexTest (buildFilter actor ∅) coll = length coll) ∧
  (User.role actor ≠ admin →
   ∀ t, t ∈ findTickets regexTest (buildFilter actor ∅) coll ↔
        t ∈ coll ∧
        (createdBy t = User.id actor ∨ assignedTo t = Some (User.id actor))).
Proof.
  assert (∀ t, matchesFilter regexTest (buildFilter actor ∅) t
               = if bool_decide (User.role actor ≠ admin)
                 then bool_decide (createdBy t = User.id actor)
                      || bool_decide (assignedTo t = Some (User.id actor))
                 else true) as Hmatch.
  { intros t. unfold matchesFilter, buildFilter, queryParam.
    rewrite !lookup_empty. cbn. rewrite !andb_true_r. by case_bool_decide. }
  split; intros Hrole.
  - assert (findTickets regexTest (buildFilter actor ∅) coll = coll) as Hall.
    { unfold findTickets. induction coll as [|t coll IH]; [done|].
      cbn [List.filter]. rewrite Hmatch, bool_decide_false by tauto. by f_equal. }
    unfold countDocuments. by rewrite Hall.
  - intros t. unfold findTickets.
    rewrite list_elem_of_In, List.filter_In, <- list_elem_of_In, Hmatch.
    rewrite bool_decide_true by done.
    rewrite orb_true_iff, !bool_decide_eq_true. tauto.
Qed.


(** ** Tickets are kept, and their comments only grow *)

Section Growth.

Implicit Types (env : Env) (db : DB) (req : Req.t) (coll : list Ticket)
  (t o : Ticket) (i : oid) (u : gmap string JS.value).

Ltac outcome_cases :=
  repeat match goal with
  | H : context [mbind _ ?m] |- _ => destruct m eqn:?; cbn in H
  end; unfold mret, Outcome_ret in *; simplify_eq.

Lemma setPath_content key v t t' :
  setPath key v t = Returned t' →
  comments t' = comments t ∧
  (key ≠ "createdBy" → createdBy t' = createdBy t).
Proof.
  unfold setPath. intros H.
  repeat match type of H with
  | (if String.eqb ?k ?s then _ else _) = _ =>
      destruct (String.eqb_spec k s) as [?|?];
      [outcome_cases; split; intros; (done || congruence)|]
  end.
  injection H as <-. by split.
Qed.

Lemma applyUpdates_content u t t' :
  applyUpdates u t = Returned t' →
  comments t' = comments t ∧
  (u !! "createdBy" = None → createdBy t' = createdBy t).
Proof.
  unfold applyUpdates. intros H.
  apply (applyUpdates_fold
           (λ x, comments x = comments t ∧
                 (u !! "createdBy" = None → createdBy x = createdBy t))
           u schemaPaths (mret t) t'); [| |exact H]; clear H.
  - intros key v x x' Hv (Hc & Hb) Hset.
    destruct (setPath_content _ _ _ _ Hset) as (Hc' & Hb').
    rewrite Hc'. split; [done|]. intros Hnone. rewrite Hb' by congruence. auto.
  - intros x [= <-]. done.
Qed.

Lemma save_content now coll loaded t coll' t' :
  save now coll loaded t = Returned (coll', t') →
  createdBy t' = createdBy t ∧ comments t' = comments t.
Proof.
  unfold save, validateBeforeSave. intros H.
  destruct (JS.truthyString (ticketNumber t)) eqn:Hnum; [|done].
  cbn [mbind Outcome_bind] in H.
  rewrite preSaveTicketNumber_assigned in H by done.
  destruct loaded as [o|]; case_match; simplify_eq;
    cbn [createdBy comments set_updatedAt];
    try match goal with
    | |- context [preSaveTimestamps ?m ?n ?x] =>
        destruct (preSaveTimestamps_writes m n x) as (r & c & ->)
    end; cbn [createdBy comments set_closedAt set_resolvedAt]; by split.
Qed.

(** The store after one document has been replaced by a later version. *)
Lemma replaceById_grows coll o t' i t :
  findById coll (_id o) = Some o → _id t' = _id o → grownFrom o t' →
  findById coll i = Some t →
  ∃ t'', findById (replaceById t' coll) i = Some t'' ∧ grownFrom t t''.
Proof.
  intros Ho Hid Hgrown Ht. destruct (decide (i = _id t')) as [->|Hne].
  - exists t'. split; [apply findById_replaceById_eq with o; by rewrite Hid|].
    rewrite Hid, Ho in Ht. by simplify_eq.
  - exists t. rewrite findById_replaceById_ne by done. by repeat split.
Qed.

Lemma grownFrom_refl t : grownFrom t t.
Proof. by repeat split. Qed.

Lemma grownFrom_trans t1 t2 t3 : grownFrom t1 t2 → grownFrom t2 t3 → grownFrom t1 t3.
Proof.
  intros (Hi & Hb & Hc) (Hi' & Hb' & Hc'). repeat split; [congruence..|].
  by etrans.
Qed.

Lemma serve_grows db c i t :
  ¬ overwrites c →
  findById (Tickets db) i = Some t →
  ∃ t', findById (Tickets (serve db c).1) i = Some t' ∧ grownFrom t t'.
Proof.
  intros Hc Ht. unfold serve, overwrites in *.
  assert (∃ t', findById (Tickets db) i = Some t' ∧ grownFrom t t') as Hsame
    by (exists t; auto using grownFrom_refl).
  destruct (callRoute c); cbn [router]; unfold requireAdmin;
    rewrite ?checkTicketAccess_next.
  - unfold createTicket. case_bool_decide; [done|].
    destruct (newTicket _ _) as [ticket|e]; [|done]. cbn [mbind Outcome_bind].
    destruct (save _ _ _ _) as [[coll t']|e] eqn:Hsave; [|done].
    apply save_result in Hsave as (_ & _ & ->).
    exists t. split; [by apply findById_app|apply grownFrom_refl].
  - by case_bool_decide.
  - by rewrite getTicketById_reads.
  - unfold updateTicket. case_bool_decide; [done|].
    destruct (findById (Tickets db) (Req.params_id (callReq c))) as [ticket|] eqn:Hfind;
      [|done].
    destruct (negb (isAdmin _) && negb (isOwner _ _) && negb (isAssigned _ _));
      [done|].
    set (updates := if negb (isAdmin (callReq c)) then restrictUpdates _ else _).
    assert (updates !! "createdBy" = None) as Hnone.
    { unfold updates, isAdmin. case_bool_decide as Hrole; cbn [negb].
      - destruct (Req.body (callReq c) !! "createdBy") eqn:Hb; [|done].
        exfalso. apply Hc. split; [done|]. split; [done|]. left. rewrite ?Hb. done.
      - by rewrite restrictUpdates_lookup, allowedFields_test. }
    unfold findByIdAndUpdate. rewrite Hfind.
    destruct (applyUpdates updates ticket) as [t1|e] eqn:Happly; [|done].
    cbn [mbind Outcome_bind].
    destruct (bool_decide _ && duplicateNumber _ _); [done|]. cbn [mret Outcome_ret fst].
    destruct (applyUpdates_content _ _ _ Happly) as (Hcomments & Hcreator).
    destruct (applyUpdates_frame _ _ _ Happly) as (Hid & _).
    destruct (findById_Some _ _ _ Hfind) as [Hparam _]. rewrite <- Hparam in Hfind.
    apply replaceById_grows with ticket; [done|done| |done].
    repeat split; cbn; [done|by apply Hcreator|by rewrite Hcomments].
  - unfold addComment. case_bool_decide; [done|].
    destruct (findById (Tickets db) (Req.params_id (callReq c))) as [ticket|] eqn:Hfind;
      [|done].
    destruct (negb (isAdmin _) && negb (isOwner _ _) && negb (isAssigned _ _));
      [done|].
    destruct (newComment _ _ _) as [comment|e]; [|done]. cbn [mbind Outcome_bind].
    destruct (save _ _ _ _) as [[coll t']|e] eqn:Hsave; [|done].
    destruct (save_content _ _ _ _ _ _ Hsave) as (Hb & Hcs).
    apply save_result in Hsave as (Hid & _ & ->).
    destruct (findById_Some _ _ _ Hfind) as [Hparam _]. rewrite <- Hparam in Hfind.
    apply replaceById_grows with ticket; [done|done| |done].
    repeat split; [done|done|]. rewrite Hcs. by apply prefix_app_r.
  - case_bool_decide; [done|]. unfold assignTicket.
    destruct (findById (Tickets db) (Req.params_id (callReq c))) as [ticket|] eqn:Hfind;
      [|done].
    destruct (match Req.body (callReq c) !! "assignedTo" with
              | Some v => _
              | None => _
              end) as [target|e]; [|done].
    destruct (JS.truthy _ && bool_decide _); [done|].
    destruct (save _ _ _ _) as [[coll t']|e] eqn:Hsave; [|done].
    destruct (save_content _ _ _ _ _ _ Hsave) as (Hb & Hcs).
    apply save_result in Hsave as (Hid & _ & ->).
    destruct (findById_Some _ _ _ Hfind) as [Hparam _]. rewrite <- Hparam in Hfind.
    apply replaceById_grows with ticket; [done| | |done].
    + rewrite Hid. by case_match.
    + repeat split; [rewrite Hid|rewrite Hb|rewrite Hcs]; by case_match.
Qed.

Lemma run_grows db calls i t :
  Forall (λ c, ¬ overwrites c) calls →
  findById (Tickets db) i = Some t →
  ∃ t', findById (Tickets (run db calls)) i = Some t' ∧ grownFrom t t'.
Proof.
  intros Hcalls. revert db t.
  induction Hcalls as [|c calls Hc _ IH]; intros db t Ht;
    [exists t; auto using grownFrom_refl|].
  destruct (serve_grows db c i t Hc Ht) as (t1 & Ht1 & Hgrown1).
  destruct (IH (serve db c).1 t1 Ht1) as (t2 & Ht2 & Hgrown2).
  exists t2. split; [exact Ht2|]. by eapply grownFrom_trans.
Qed.

(** A patch given by its fields is within the scalar paths when each of its
    keys is. *)
Lemma scalarPatch_fields (fields : list (string * JS.value)) :
  Forall (λ kv, kv.1 ∈ schemaPaths) fields → scalarPatch (list_to_map fields).
Proof.
  rewrite Forall_forall. intros Hfields key [v Hv].
  apply elem_of_list_to_map_2 in Hv. exact (Hfields (key, v) Hv).
Qed.

(** The ticket routes leave the user collection as it is. *)
Lemma serve_keeps_users db c : Users (serve db c).1 = Users db.
Proof.
  unfold serve.
  destruct (callRoute c); cbn [router];
    unfold requireAdmin, checkTicketAccess, createTicket, getTicketStats, getTicketById,
      updateTicket, addComment, assignTicket;
    by repeat case_match.
Qed.

Lemma run_keeps_users db calls : Users (run db calls) = Users db.
Proof.
  revert db. induction calls as [|c calls IH]; intros db; [done|].
  unfold run in *. cbn [foldl]. by rewrite IH, serve_keeps_users.
Qed.

End Growth.

(** X13.  Tickets are never removed and comments are append-only: through
    any sequence of requests on the ticket routes served one after the
    other, in which every update by an admin has a patch whose keys are
    scalar paths other than [createdBy], a stored ticket stays stored under
    its id, keeps its creator, and keeps every comment it had, in order, at
    the front of its comments.  (A patch of an admin with another key, such
    as [comments] or a dotted path into the comments, can rewrite them.) *)
Theorem comments_only_grow db calls i t :
  Forall (λ c, ¬ overwrites c) calls →
  findById (Tickets db) i = Some t →
  ∃ t', findById (Tickets (run db calls)) i = Some t' ∧
        createdBy t' = createdBy t ∧
        comments t `prefix_of` comments t'.
Proof.
  intros Hcalls Ht.
  destruct (run_grows db calls i t Hcalls Ht) as (t' & Ht' & _ & Hb & Hc).
  by exists t'.
Qed.

Lemma comments_only_grow_witness :
  ∃ t', findById (Tickets (run Sample.db Sample.day)) Sample.t1 = Some t' ∧
        createdBy t' = createdBy Sample.ticket ∧
        comments Sample.ticket `prefix_of` comments t'.
Proof.
  apply (comments_only_grow Sample.db Sample.day Sample.t1 Sample.ticket).
  - repeat constructor; intros (Hroute & Hrole & Hkey);
      try first [discriminate Hroute | discriminate Hrole];
      destruct Hkey as [Hkey|Hkey];
      [vm_compute in Hkey; by destruct Hkey|].
    apply Hkey, scalarPatch_fields. repeat constructor.
  - reflexivity.
Defined.

(** X14.  A creator whose account is active keeps the access to the
    ticket: after any such sequence of requests on the ticket routes,
    [GET /api/tickets/:id] with a token that verifies to the creator is
    answered 200 with the ticket, which carries every comment it had
    before.  (The ticket routes leave the users as they are; a creator who
    has been deactivated in between is stopped by [authenticateToken].) *)
Theorem creator_keeps_access jwtVerify db calls t env raw token account :
  Forall (λ c, ¬ overwrites c) calls →
  findById (Tickets db) (Raw.params_id raw) = Some t →
  bearerToken raw = Some token → token ≠ "" →
  jwtVerify token = Decoded (User.id account) →
  findUserById (Users db) (User.id account) = Some account →
  User.isActive account = true →
  createdBy t = User.id account →
  ∃ t', api jwtVerify GET_tickets_id env (run db calls) raw
        = (run db calls, mkResponse 200 (TicketOnly t')) ∧
        comments t `prefix_of` comments t'.
Proof.
  intros Hcalls Ht Htoken Hne Hverify Haccount Hactive Hcreator.
  destruct (run_grows db calls _ t Hcalls Ht) as (t' & Ht' & _ & Hb & Hc).
  exists t'. split; [|done]. unfold api.
  rewrite (authenticateToken_verified _ _ _ _ _ _ _ Htoken Hne Hverify).
  rewrite run_keeps_users, Haccount, Hactive.
  cbn [router]. rewrite checkTicketAccess_next.
  apply getTicketById_permitted; [done|]. right; left. cbn [Req.user]. congruence.
Qed.

Lemma creator_keeps_access_witness :
  ∃ t', api Scenario.verify GET_tickets_id (Sample.env 20000 "") (run Sample.db Sample.day)
          (Scenario.raw (Scenario.bearer Sample.alice) Sample.t1 [])
        = (run Sample.db Sample.day, mkResponse 200 (TicketOnly t')) ∧
        comments Sample.ticket `prefix_of` comments t'.
Proof.
  apply (creator_keeps_access Scenario.verify Sample.db Sample.day Sample.ticket
           (Sample.env 20000 "")
           (Scenario.raw (Scenario.bearer Sample.alice) Sample.t1 [])
           (User.id Sample.alice) Sample.alice).
  - repeat constructor; intros (Hroute & Hrole & Hkey);
      try first [discriminate Hroute | discriminate Hrole];
      destruct Hkey as [Hkey|Hkey];
      [vm_compute in Hkey; by destruct Hkey|].
    apply Hkey, scalarPatch_fields. repeat constructor.
  - reflexivity.
  - reflexivity.
  - discriminate.
  - reflexivity.
  - reflexivity.
  - reflexivity.
  - reflexivity.
Defined.


(** ** The distributions of [getTicketStats] *)

Lemma aggregateCount_lookup (path : Ticket → string) (coll : list Ticket) (k : string) :
  aggregateCount path coll !! k
  = if decide (length (filter (λ t, path t = k) coll) = 0%nat) then None
    else Some (length (filter (λ t, path t = k) coll)).
Proof.
  unfold aggregateCount. induction coll as [|t coll IH]; [done|].
  cbn [foldr]. rewrite filter_cons. destruct (decide (path t = k)) as [->|Hne].
  - rewrite lookup_insert_eq, IH. cbn [length].
    by destruct (decide (length (filter _ coll) = 0%nat)) as [->|?].
  - by rewrite lookup_insert_ne.
Qed.

(** X16.  The priority and category distributions of [getTicketStats] have
    an entry for exactly the priorities and categories that occur among the
    stored tickets, and each entry is the number of tickets that have it: a
    priority that no ticket has is absent, not listed with 0. *)
Theorem getTicketStats_distributions env db req :
  ∃ ov priorities cats,
    getTicketStats env db req = (db, mkResponse 200 (Statistics ov priorities cats)) ∧
    (∀ p, let n := length (filter (λ t, priority t = p) (Tickets db)) in
          priorities !! Priority_string p = if decide (n = 0%nat) then None else Some n) ∧
    (∀ k n, priorities !! k = Some n → ∃ p, k = Priority_string p) ∧
    (∀ c, let n := length (filter (λ t, category t = c) (Tickets db)) in
          cats !! c = if decide (n = 0%nat) then None else Some n).
Proof.
  unfold getTicketStats. do 3 eexists. split; [reflexivity|]. split_and!.
  - intros p. cbn zeta. rewrite aggregateCount_lookup.
    rewrite (list_filter_iff (λ t, Priority_string (priority t) = Priority_string p)
               (λ t, priority t = p)); [done|].
    intros t. split; [|by intros ->]. by destruct (priority t), p.
  - intros k n. rewrite aggregateCount_lookup. case_decide as Hn; [done|]. intros _.
    destruct (filter _ (Tickets db)) as [|t rest] eqn:Hfilter; [done|].
    assert (t ∈ t :: rest) as Hin by apply list_elem_of_here.
    rewrite <- Hfilter in Hin. apply list_elem_of_filter in Hin as [<- _]. by eexists.
  - intros c. cbn zeta. by rewrite aggregateCount_lookup.
Qed.

(** ** The last ticket of the day *)

Section LastOfDay.

Implicit Types (now d : Date) (coll : list Ticket) (t last : Ticket) (best : option Ticket).

(** For dates whose fields are in range, the window from [setHours(0, 0, 0,
    0)] to [setHours(23, 59, 59, 999)] holds the instants of the calendar day
    of [now] and no other. *)
Lemma window_sameDay now d :
  validDate now → validDate d →
  getTime (setHours 0 0 0 0 now) ≤ getTime d ≤ getTime (setHours 23 59 59 999 now)
  ↔ sameDay d now.
Proof.
  unfold validDate, sameDay, getTime, setHours.
  cbn [getFullYear getMonth getDate getMillisOfDay]. lia.
Qed.

Lemma findOneCreatedWithin_spec lo hi coll best :
  let inWindow t := getTime lo ≤ getTime (createdAt t) ≤ getTime hi in
  let found :=
    foldl (λ best t,
             if bool_decide (getTime lo ≤ getTime (createdAt t) ≤ getTime hi) then
               match best with
               | Some b =>
                   if bool_decide (getTime (createdAt b) < getTime (createdAt t))
                   then Some t else best
               | None => Some t
               end
             else best)
          best coll in
  match found with
  | None => best = None ∧ Forall (λ t, ¬ inWindow t) coll
  | Some last =>
      (last ∈ coll ∧ inWindow last ∨ best = Some last) ∧
      (∀ b, best = Some b → getTime (createdAt b) ≤ getTime (createdAt last)) ∧
      (∀ t, t ∈ coll → inWindow t → getTime (createdAt t) ≤ getTime (createdAt last))
  end.
Proof.
  cbn zeta. revert best. induction coll as [|x coll IH]; intros best; cbn [foldl].
  - destruct best as [b|]; [|done]. split_and!; [by right|by intros ? [= ->]|].
    intros t Ht. by inversion Ht.
  - match goal with |- context [foldl ?f ?acc coll] => specialize (IH acc) end.
    destruct (foldl _ _ coll) as [last|].
    + destruct IH as (Hlast & Hbest & Hall). case_bool_decide as Hx.
      * destruct best as [b|].
        -- case_bool_decide as Hnewer.
           ++ split_and!.
              ** destruct Hlast as [[Hin Hw]|[= <-]]; left;
                   (split; [|done]); [by right|by left].
              ** intros b' [= <-]. specialize (Hbest x eq_refl). lia.
              ** intros t [->|Hin]%elem_of_cons Ht; [by apply Hbest|by apply Hall].
           ++ split_and!.
              ** destruct Hlast as [[Hin Hw]|Heq]; [left|by right].
                 split; [by right|done].
              ** done.
              ** intros t [->|Hin]%elem_of_cons Ht; [|by apply Hall].
                 specialize (Hbest b eq_refl). lia.
        -- split_and!.
           ++ destruct Hlast as [[Hin Hw]|[= <-]]; left;
                (split; [|done]); [by right|by left].
           ++ done.
           ++ intros t [->|Hin]%elem_of_cons Ht; [by apply Hbest|by apply Hall].
      * split_and!.
        -- destruct Hlast as [[Hin Hw]|Heq]; [left|by right]. split; [by right|done].
        -- done.
        -- intros t [->|Hin]%elem_of_cons Ht; [done|by apply Hall].
    + destruct IH as (Hnone & Hall). case_bool_decide as Hx.
      * by destruct best as [b|]; [case_bool_decide|].
      * split; [done|]. by constructor.
Qed.

End LastOfDay.

(** X17.  The ticket that the numbering hook takes for the last of the day:
    when the dates involved have their fields in range, it is a stored ticket
    created on the calendar day of [now], and no stored ticket of that day
    was created after it; there is none exactly when no stored ticket was
    created on that day, whatever the store holds of other days. *)
Theorem lastOfDay_spec now coll :
  validDate now →
  Forall (λ t, validDate (createdAt t)) coll →
  match lastOfDay now coll with
  | None => Forall (λ t, ¬ sameDay (createdAt t) now) coll
  | Some last =>
      last ∈ coll ∧ sameDay (createdAt last) now ∧
      ∀ t, t ∈ coll → sameDay (createdAt t) now →
           getTime (createdAt t) ≤ getTime (createdAt last)
  end.
Proof.
  intros Hnow Hcoll. rewrite Forall_forall in Hcoll.
  pose proof (findOneCreatedWithin_spec (setHours 0 0 0 0 now)
                (setHours 23 59 59 999 now) coll None) as Hspec.
  cbn zeta in Hspec. unfold lastOfDay, findOneCreatedWithin.
  destruct (foldl _ None coll) as [last|].
  - destruct Hspec as ([[Hin Hw]|Heq] & _ & Hall); [|done].
    split_and!; [done|by apply window_sameDay; auto|].
    intros t Ht Hday. apply Hall; [done|]. apply window_sameDay; auto.
  - destruct Hspec as (_ & Hall). rewrite Forall_forall in Hall |- *.
    intros t Ht Hday. apply (Hall t Ht). apply window_sameDay; auto.
Qed.

Lemma lastOfDay_spec_witness :
  lastOfDay (mkDate 2024 0 2 50000) (Tickets Scenario.db) = Some Scenario.resolvedTicket ∧
  Scenario.resolvedTicket ∈ Tickets Scenario.db ∧
  sameDay (createdAt Scenario.resolvedTicket) (mkDate 2024 0 2 50000).
Proof.
  pose proof (lastOfDay_spec (mkDate 2024 0 2 50000) (Tickets Scenario.db)) as Hspec.
  assert (lastOfDay (mkDate 2024 0 2 50000) (Tickets Scenario.db)
          = Some Scenario.resolvedTicket) as Hlast by reflexivity.
  rewrite Hlast in Hspec. split; [reflexivity|].
  destruct Hspec as (Hin & Hday & _); [| |by split].
  - unfold validDate. cbn. lia.
  - repeat constructor; unfold validDate; cbn; lia.
Defined.

(** X15.  The numbering hook taken by itself: a document that has its
    number is left as it is, and a document without one gets the number
    TKT-YYYYMMDD-0001 of the day of [now], and no other path of it is
    written, when no stored ticket was created on that calendar day,
    whatever the store holds of other days (the dates having their fields
    in range). *)
Theorem numbering_hook_first_of_day now coll this :
  validDate now →
  Forall (λ t, validDate (createdAt t) ∧ ¬ sameDay (createdAt t) now) coll →
  preSaveTicketNumber now coll this
  = if JS.truthyString (ticketNumber this) then this
    else set_ticketNumber (Some (numberOfDay now "0001")) this.
Proof.
  intros Hnow Hcoll. rewrite Forall_forall in Hcoll.
  assert (lastOfDay now coll = None) as Hlast.
  { pose proof (findOneCreatedWithin_spec (setHours 0 0 0 0 now)
                  (setHours 23 59 59 999 now) coll None) as Hspec.
    cbn zeta in Hspec. unfold lastOfDay, findOneCreatedWithin.
    destruct (foldl _ None coll) as [last|]; [|done].
    destruct Hspec as ([[Hin Hw]|Heq] & _); [|done].
    destruct (Hcoll last Hin) as [Hvalid Hother].
    exfalso. apply Hother. by apply window_sameDay. }
  unfold preSaveTicketNumber. fold (lastOfDay now coll). rewrite Hlast.
  by destruct (JS.truthyString (ticketNumber this)).
Qed.

Lemma numbering_hook_first_of_day_witness :
  ticketNumber
    (preSaveTicketNumber (mkDate 2024 0 3 500) (Tickets Scenario.db)
       (set_ticketNumber None Sample.ticket))
  = Some "TKT-20240103-0001".
Proof.
  rewrite (numbering_hook_first_of_day (mkDate 2024 0 3 500) (Tickets Scenario.db)
             (set_ticketNumber None Sample.ticket)).
  - reflexivity.
  - unfold validDate. cbn. lia.
  - repeat constructor; unfold validDate, sameDay; cbn; try lia.
    all: intros (_ & _ & Hday); discriminate Hday.
Defined.

(** ** Status changes by an admin *)

(** X18.  No transition table stands between two statuses: an admin's update
    whose patch is a status sets that status on a ticket in any status, a
    Closed or Resolved one included, and changes nothing else of the ticket
    but [updatedAt]; in particular it leaves [resolvedAt] and [closedAt] as
    they are. *)
Theorem updateTicket_admin_sets_any_status env db req ticket s :
  Req.validationErrors req = [] →
  findById (Tickets db) (Req.params_id req) = Some ticket →
  User.role (Req.user req) = admin →
  Req.body req = {[ "status" := JS.Str (Status_string s) ]} →
  let ticket' := set_updatedAt (now env) (set_status s ticket) in
  updateTicket env db req
  = (withTickets (replaceById ticket' (Tickets db)) db,
     mkResponse 200 (MessageTicket "Ticket updated successfully" (Some ticket'))) ∧
  findById (replaceById ticket' (Tickets db)) (Req.params_id req) = Some ticket' ∧
  status ticket' = s.
Proof.
  intros Hval Hfind Hrole Hbody ticket'.
  pose proof (findById_Some _ _ _ Hfind) as [Hid _].
  split_and!; [| |done].
  - unfold updateTicket.
    rewrite bool_decide_false by (by rewrite Hval; intros []).
    rewrite Hfind, permitted_test by tauto.
    unfold isAdmin. rewrite bool_decide_true by done. cbn [negb].
    unfold findByIdAndUpdate. rewrite Hfind, Hbody.
    assert (applyUpdates {[ "status" := JS.Str (Status_string s) ]} ticket
            = Returned (set_status s ticket)) as ->.
    { unfold applyUpdates, schemaPaths. cbn [foldl].
      rewrite lookup_singleton_eq, !lookup_singleton_ne by done.
      cbn [mbind mret Outcome_bind Outcome_ret]. unfold setPath.
      cbn [String.eqb Ascii.eqb Bool.eqb].
      by destruct s. }
    cbn [mbind Outcome_bind]. fold ticket'.
    rewrite (bool_decide_false (ticketNumber ticket ≠ _)); [done|].
    intros Hne. by apply Hne.
  - replace (Req.params_id req) with (_id ticket') by done.
    apply findById_replaceById_eq with ticket. by rewrite <- Hid in Hfind.
Qed.

Lemma updateTicket_admin_sets_any_status_witness :
  let ticket' :=
    set_updatedAt (now (Sample.env 7000 "")) (set_status Open Scenario.resolvedTicket) in
  updateTicket (Sample.env 7000 "") Scenario.db Scenario.carolReopens
  = (withTickets (replaceById ticket' (Tickets Scenario.db)) Scenario.db,
     mkResponse 200 (MessageTicket "Ticket updated successfully" (Some ticket'))) ∧
  findById (replaceById ticket' (Tickets Scenario.db)) (Req.params_id Scenario.carolReopens)
  = Some ticket' ∧
  status ticket' = Open.
Proof.
  apply (updateTicket_admin_sets_any_status (Sample.env 7000 "") Scenario.db
           Scenario.carolReopens Scenario.resolvedTicket Open); reflexivity.
Defined.

(** ** Assignment and access *)

Lemma assignTicket_stored env db req ticket target :
  findById (Tickets db) (Req.params_id req) = Some ticket →
  JS.truthyString (ticketNumber ticket) = true →
  requestedAssignee db req = Some target →
  ∃ ticket',
    (assignTicket env db req).1 = withTickets (replaceById ticket' (Tickets db)) db ∧
    findById (replaceById ticket' (Tickets db)) (Req.params_id req) = Some ticket' ∧
    assignedTo ticket' = target ∧ createdBy ticket' = createdBy ticket.
Proof.
  intros Hfind Hnum Hreq.
  pose proof (findById_Some _ _ _ Hfind) as [Hid _].
  unfold requestedAssignee in Hreq. unfold assignTicket. rewrite Hfind.
  assert (∀ ticket2,
            _id ticket2 = _id ticket → ticketNumber ticket2 = ticketNumber ticket →
            assignedTo ticket2 = target → createdBy ticket2 = createdBy ticket →
            ∃ ticket',
              (match save (now env) (Tickets db) (Some ticket) ticket2 with
               | Returned (coll, ticket') =>
                   (withTickets coll db,
                    mkResponse 200
                      (MessageTicket "Ticket assignment updated successfully"
                         (Some ticket')))
               | Thrown e => (db, failed env "Failed to assign ticket" e)
               end).1 = withTickets (replaceById ticket' (Tickets db)) db ∧
              findById (replaceById ticket' (Tickets db)) (Req.params_id req)
              = Some ticket' ∧
              assignedTo ticket' = target ∧ createdBy ticket' = createdBy ticket)
    as Hsaved.
  { intros ticket2 Hid2 Hn2 Ha2 Hb2.
    rewrite save_loaded by (by rewrite ?Hn2).
    destruct (saved_fields (now env) ticket ticket2) as (Hi & _ & _ & Ha & _).
    assert (createdBy (saved (now env) ticket ticket2) = createdBy ticket2) as Hb.
    { unfold saved.
      by destruct (preSaveTimestamps_writes
                     (bool_decide (status ticket ≠ status ticket2)) (now env) ticket2)
        as (r & c & ->). }
    exists (saved (now env) ticket ticket2). split_and!; [done| |congruence..].
    replace (Req.params_id req) with (_id (saved (now env) ticket ticket2))
      by congruence.
    apply findById_replaceById_eq with ticket. by rewrite Hi, Hid2, Hid. }
  destruct (JS.truthy (Req.body req !! "assignedTo")) eqn:Htruthy.
  - destruct (Req.body req !! "assignedTo") as [[| b | n | i]|]; try done.
    destruct (findUserById (Users db) i) as [u|] eqn:Hu; [|done].
    injection Hreq as <-.
    cbn [castObjectId mbind option_bind andb]. rewrite Hu.
    rewrite bool_decide_false by done.
    apply Hsaved; by case_bool_decide.
  - injection Hreq as <-.
    assert (match Req.body req !! "assignedTo" with
            | Some v => Returned None
            | None => Returned None
            end = @Returned (option oid) None) as -> by by case_match.
    cbn [andb]. by apply Hsaved.
Qed.

(** X19.  The assignment decides who, besides the creator and the admins,
    may read a ticket.  After [assignTicket] has set or cleared the assignee,
    a user who is neither admin nor creator is answered 200 with the ticket
    if the user is the assignee now, and 403 'Access denied' otherwise: the
    previous assignee loses the access that the assignment had given. *)
Theorem assignment_decides_access env db req ticket target env' req' :
  findById (Tickets db) (Req.params_id req) = Some ticket →
  JS.truthyString (ticketNumber ticket) = true →
  requestedAssignee db req = Some target →
  Req.params_id req' = Req.params_id req →
  User.role (Req.user req') ≠ admin →
  createdBy ticket ≠ User.id (Req.user req') →
  let db' := (assignTicket env db req).1 in
  (target = Some (User.id (Req.user req')) →
   ∃ ticket', getTicketById env' db' req' = (db', mkResponse 200 (TicketOnly ticket')) ∧
              assignedTo ticket' = target) ∧
  (target ≠ Some (User.id (Req.user req')) →
   getTicketById env' db' req' = (db', mkResponse 403 (Message "Access denied"))).
Proof.
  intros Hfind Hnum Hreq Hsame Hrole Hcreator db'.
  destruct (assignTicket_stored env db req ticket target Hfind Hnum Hreq)
    as (ticket' & Hdb & Hfind' & Hassigned & Hcreated).
  subst db'. rewrite Hdb. split; intros Htarget.
  - exists ticket'. split; [|done].
    apply getTicketById_permitted; [by rewrite Hsame|].
    right; right. congruence.
  - unfold getTicketById. cbn [Tickets withTickets]. rewrite Hsame, Hfind'.
    rewrite stranger_test; [done|]. repeat split; congruence.
Qed.

Lemma assignment_decides_access_witness :
  let db' := (assignTicket (Sample.env 7000 "") Scenario.db Scenario.carolUnassigns).1 in
  getTicketById (Sample.env 8000 "") db' (Sample.request Sample.bob Sample.t2 [])
  = (db', mkResponse 403 (Message "Access denied")).
Proof.
  destruct (assignment_decides_access (Sample.env 7000 "") Scenario.db
              Scenario.carolUnassigns Scenario.resolvedTicket None (Sample.env 8000 "")
              (Sample.request Sample.bob Sample.t2 [])) as [_ Hrevoked].
  - reflexivity.
  - reflexivity.
  - vm_compute. reflexivity.
  - reflexivity.
  - discriminate.
  - discriminate.
  - apply Hrevoked. discriminate.
Defined.


(** ** What authentication lets through *)

(** X20.  [authenticateToken] lets a request through to the handler only
    when its token verifies to a stored user who is active, and the handler
    then sees that stored user as [req.user]; in every other case the answer
    is 401 or 500 and the store is as it was. *)
Theorem authenticateToken_gate jwtVerify next env db raw :
  (∃ token i account,
     bearerToken raw = Some token ∧ jwtVerify token = Decoded i ∧
     findUserById (Users db) i = Some account ∧ User.isActive account = true ∧
     authenticateToken jwtVerify next env db raw
     = next env db
         (Req.mk account (Raw.params_id raw) (Raw.body raw) (Raw.files raw)
            (Raw.validationErrors raw))) ∨
  ((authenticateToken jwtVerify next env db raw).1 = db ∧
   (statusCode (authenticateToken jwtVerify next env db raw).2 = 401 ∨
    statusCode (authenticateToken jwtVerify next env db raw).2 = 500)).
Proof.
  unfold authenticateToken.
  destruct (bearerToken raw) as [token|] eqn:Htoken; [|right; by split; [|left]].
  destruct (JS.truthyString (Some token)) eqn:Htruthy; cbn [negb];
    [|right; by split; [|left]].
  cbn [default from_option id].
  destruct (jwtVerify token) as [i| | |] eqn:Hverify;
    try (right; split; [done|]; (by left) || (by right)).
  destruct (findUserById (Users db) i) as [account|] eqn:Hfind;
    [|right; by split; [|left]].
  destruct (User.isActive account) eqn:Hactive; cbn [negb];
    [|right; by split; [|left]].
  left. by exists token, i, account.
Qed.

(** ** Updates by an admin that assign *)

(** X21.  An admin who sets [assignedTo] through [updateTicket] instead of
    [assignTicket] gets neither the check that the assignee exists nor the
    move from Open to In Progress: for a well-formed id, whether or not it
    resolves to a user, the request is answered 200, the stored ticket is
    assigned to the id as given and its status stays as it was. *)
Theorem updateTicket_admin_assigns_unchecked env db req ticket i :
  Req.validationErrors req = [] →
  findById (Tickets db) (Req.params_id req) = Some ticket →
  User.role (Req.user req) = admin →
  Req.body req = {[ "assignedTo" := JS.Str i ]} →
  isObjectId i = true →
  statusCode (updateTicket env db req).2 = 200 ∧
  ∃ ticket',
    findById (Tickets (updateTicket env db req).1) (Req.params_id req) = Some ticket' ∧
    assignedTo ticket' = Some i ∧ status ticket' = status ticket.
Proof.
  intros Hval Hfind Hrole Hbody _.
  pose proof (findById_Some _ _ _ Hfind) as [Hid _].
  set (ticket' := set_updatedAt (now env) (set_assignedTo (Some i) ticket)).
  assert (updateTicket env db req
          = (withTickets (replaceById ticket' (Tickets db)) db,
             mkResponse 200 (MessageTicket "Ticket updated successfully" (Some ticket'))))
    as ->.
  { unfold updateTicket.
    rewrite bool_decide_false by (by rewrite Hval; intros []).
    rewrite Hfind, permitted_test by tauto.
    unfold isAdmin. rewrite bool_decide_true by done. cbn [negb].
    unfold findByIdAndUpdate. rewrite Hfind, Hbody.
    assert (applyUpdates {[ "assignedTo" := JS.Str i ]} ticket
            = Returned (set_assignedTo (Some i) ticket)) as ->.
    { unfold applyUpdates, schemaPaths. cbn [foldl].
      by rewrite lookup_singleton_eq, !lookup_singleton_ne by done. }
    cbn [mbind Outcome_bind]. fold ticket'.
    rewrite (bool_decide_false (ticketNumber ticket ≠ _)); [done|].
    intros Hne. by apply Hne. }
  split; [done|]. exists ticket'. split; [|done].
  cbn [fst Tickets withTickets].
  replace (Req.params_id req) with (_id ticket') by done.
  apply findById_replaceById_eq with ticket. by rewrite <- Hid in Hfind.
Qed.

Lemma updateTicket_admin_assigns_unchecked_witness :
  let answer := updateTicket (Sample.env 7000 "") Scenario.db Scenario.carolHandsOver in
  findUserById (Users Scenario.db) "64b7f0c2a1d3e4f5a6b7c8ee" = None ∧
  statusCode answer.2 = 200 ∧
  ∃ ticket',
    findById (Tickets answer.1) Sample.t1 = Some ticket' ∧
    assignedTo ticket' = Some "64b7f0c2a1d3e4f5a6b7c8ee" ∧
    status ticket' = status Sample.ticket.
Proof.
  split; [reflexivity|].
  apply (updateTicket_admin_assigns_unchecked (Sample.env 7000 "") Scenario.db
           Scenario.carolHandsOver Sample.ticket "64b7f0c2a1d3e4f5a6b7c8ee");
    reflexivity.
Defined.

(** ** What a draft cannot choose *)

(** X22.  [createTicket] reads seven keys of the body and no other: a key
    such as [status], [createdBy], [assignedTo] or [ticketNumber] that a
    client adds to its draft changes neither the answer nor the store. *)
Theorem createTicket_ignores_other_keys env db req key v :
  key ∉ draftFields →
  createTicket env db (withBody (<[key := v]> (Req.body req)) req)
  = createTicket env db req.
Proof.
  intros Hkey. unfold draftFields in Hkey.
  rewrite !not_elem_of_cons in Hkey.
  destruct Hkey as (H1 & H2 & H3 & H4 & H5 & H6 & H7 & _).
  unfold createTicket, newTicket, withBody.
  cbn [Req.body Req.user Req.files Req.validationErrors Req.params_id].
  by rewrite !lookup_insert_ne by done.
Qed.

Lemma createTicket_ignores_other_keys_witness :
  createTicket Scenario.thirdOfJanuary Scenario.db
    (withBody (<["status" := JS.Str "Closed"]> (Req.body Scenario.bobOpens))
       Scenario.bobOpens)
  = createTicket Scenario.thirdOfJanuary Scenario.db Scenario.bobOpens.
Proof.
  apply (createTicket_ignores_other_keys Scenario.thirdOfJanuary Scenario.db
           Scenario.bobOpens "status" (JS.Str "Closed")).
  unfold draftFields. rewrite !not_elem_of_cons. split_and!; try discriminate.
  apply not_elem_of_nil.
Defined.
